(** * pyramid_openapi3: the add-on's configuration and validation glue

    A shallow embedding of [pyramid_openapi3/__init__.py]: the view deriver
    [openapi_view], the directives that register the spec and the explorer,
    the exception view [openapi_validation_error] and the two
    [ApplicationCreated] subscribers, followed by the properties the
    specification states about them.

    Python objects that are mutated in place (the registry settings, the WSGI
    environ, the validators kept in the settings) are fields of an explicit
    state that every operation threads through; a raised exception is a value
    of [Result]. *)

From Stdlib Require Import ZArith String Ascii List Bool Lia.
From stdpp Require Import base option strings gmap list.

Local Open Scope string_scope.
Local Open Scope Z_scope.

(** ** Python strings *)

Module PyStr.

(** [s.startswith(p)] *)
Fixpoint startswith (p s : string) : bool :=
  match p with
  | EmptyString => true
  | String a p' =>
      match s with
      | EmptyString => false
      | String b s' => Ascii.eqb a b && startswith p' s'
      end
  end.

(** [s[n:]] *)
Fixpoint drop (n : nat) (s : string) : string :=
  match n with
  | O => s
  | S n' => match s with EmptyString => EmptyString | String _ s' => drop n' s' end
  end.

(** [s[:n]] *)
Fixpoint take (n : nat) (s : string) : string :=
  match n with
  | O => EmptyString
  | S n' => match s with EmptyString => EmptyString | String c s' => String c (take n' s') end
  end.

(** [s.endswith(suffix)] *)
Definition endswith (suffix s : string) : bool :=
  (String.length suffix <=? String.length s)%nat
  && String.eqb (drop (String.length s - String.length suffix) s) suffix.

(** [s.endswith((suf1, suf2, ...))] with a tuple of suffixes. *)
Definition endswith_any (suffixes : list string) (s : string) : bool :=
  existsb (fun suffix => endswith suffix s) suffixes.

(** [s.find(old)]: the index of the first occurrence, [None] for Python's -1. *)
Fixpoint find (old s : string) : option nat :=
  if startswith old s then Some O
  else match s with
       | EmptyString => None
       | String _ s' => option_map S (find old s')
       end.

(** The scan of [s.replace(old, "")] for a non-empty [old]: [skip] counts the
    characters of an occurrence found that are still to be dropped, so the
    scan resumes right after the occurrence and never looks inside it. *)
Fixpoint remove_scan (old : string) (skip : nat) (s : string) : string :=
  match s with
  | EmptyString => EmptyString
  | String c s' =>
      match skip with
      | S k => remove_scan old k s'
      | O =>
          if startswith old s
          then remove_scan old (Nat.pred (String.length old)) s'
          else String c (remove_scan old O s')
      end
  end.

(** [s.replace(old, "")]: every non-overlapping occurrence of [old], found
    scanning from the left, is deleted.  With an empty [old] Python inserts
    the replacement around every character, which changes nothing when the
    replacement is empty. *)
Definition replace_with_empty (old s : string) : string :=
  match old with
  | EmptyString => s
  | String _ _ => remove_scan old O s
  end.

(** A Python [str] is held as the bytes of its UTF-8 encoding. *)
Definition of_bytes (codes : list nat) : string :=
  fold_right (fun n s => String (ascii_of_nat n) s) EmptyString codes.

(** The characters [str.strip()] removes, those for which [str.isspace] is
    true, in UTF-8: the ASCII controls 9-13 and 28-31, the space, U+0085,
    U+00A0, U+1680, U+2000 to U+200A, U+2028, U+2029, U+202F, U+205F and
    U+3000. *)
Definition spaces : list string :=
  List.map of_bytes
    [[9]; [10]; [11]; [12]; [13]; [28]; [29]; [30]; [31]; [32];
     [194; 133]; [194; 160]; [225; 154; 128];
     [226; 128; 128]; [226; 128; 129]; [226; 128; 130]; [226; 128; 131];
     [226; 128; 132]; [226; 128; 133]; [226; 128; 134]; [226; 128; 135];
     [226; 128; 136]; [226; 128; 137]; [226; 128; 138];
     [226; 128; 168]; [226; 128; 169]; [226; 128; 175];
     [226; 129; 159]; [227; 128; 128]]%nat.

(** Removal of leading white space; every step removes at least one byte,
    so the length of the string is fuel enough. *)
Fixpoint lstrip_steps (fuel : nat) (s : string) : string :=
  match fuel with
  | O => s
  | S fuel' =>
      match List.find (fun w => startswith w s) spaces with
      | Some w => lstrip_steps fuel' (drop (String.length w) s)
      | None => s
      end
  end.

Definition lstrip (s : string) : string := lstrip_steps (String.length s) s.

(** Removal of trailing white space.  In UTF-8 no encoding of a character
    ends with the encoding of another one, so a string that ends with the
    bytes of a white space character ends with that character. *)
Fixpoint rstrip_steps (fuel : nat) (s : string) : string :=
  match fuel with
  | O => s
  | S fuel' =>
      match List.find (fun w => endswith w s) spaces with
      | Some w => rstrip_steps fuel' (take (String.length s - String.length w) s)
      | None => s
      end
  end.

Definition rstrip (s : string) : string := rstrip_steps (String.length s) s.

(** [s.strip()] *)
Definition strip (s : string) : string := rstrip (lstrip s).

Definition lower_ascii (c : ascii) : ascii :=
  let n := nat_of_ascii c in
  if ((65 <=? n) && (n <=? 90))%nat then ascii_of_nat (n + 32) else c.

(** [s.lower()], used to compare with ASCII words only: the ASCII capitals
    are mapped to their small letters and every other byte is kept.  The one
    character outside ASCII whose [lower()] is an ASCII letter is the Kelvin
    sign, which gives "k". *)
Fixpoint lower (s : string) : string :=
  match s with
  | EmptyString => EmptyString
  | String c s' => String (lower_ascii c) (lower s')
  end.

(** [x in (s1, s2, ...)] for strings. *)
Definition mem (x : string) (l : list string) : bool :=
  existsb (String.eqb x) l.

End PyStr.

(** ** The OpenAPI objects the add-on handles

    The spec object, validation errors and validation results come from
    [openapi_core]; only what the add-on reads of them is kept. *)

Record Server := { url : string }.

Record Operation := {
  parameters : list string;        (* names of the declared parameters *)
  responses : list Z               (* declared response status codes *)
}.

Record PathItem := { operations : list (string * Operation) }.

(** [spec.paths] is a dict in insertion order: its keys are the declared
    path templates. *)
Record Spec := {
  servers : list Server;
  paths : list (string * PathItem)
}.

(** Classes of [openapi_core] validation errors; [InvalidSecurity] is the
    one the exception view singles out with [isinstance]. *)
Inductive ErrorClass :=
| InvalidSecurity
| MissingRequiredParameter
| InvalidSchemaValue
| OtherErrorClass (name : string).

Record OpenAPIError := {
  err_class : ErrorClass;
  err_message : string;
  err_field : option string
}.

Definition is_InvalidSecurity (error : OpenAPIError) : bool :=
  match err_class error with InvalidSecurity => true | _ => false end.

(** The generic request shape built by [PyramidOpenAPIRequestFactory]. *)
Record OpenAPIRequest := {
  full_url_pattern : string;
  oa_method : string;
  oa_parameters : list (string * string);
  oa_body : string;
  oa_mimetype : string
}.

(** [RequestValidationResult]: the error list and the validated data. *)
Record RequestValidationResult := {
  errors : list OpenAPIError;
  validated_parameters : list (string * string);
  validated_body : option string
}.

(** A custom formatter, registered under a format name. *)
Definition Formatter : Type := string -> string.

(** A [RequestValidator] or [ResponseValidator] object of [openapi_core]:
    the spec and the custom formatters it holds, and its [base_url], the one
    attribute the add-on assigns. *)
Record BaseValidator := {
  v_spec : Spec;
  custom_formatters : option (gmap string Formatter);
  base_url : option string
}.

Definition set_base_url (v : BaseValidator) (u : string) : BaseValidator :=
  {| v_spec := v_spec v; custom_formatters := custom_formatters v; base_url := Some u |}.

(** The configuration bag: the dict stored under
    [settings["pyramid_openapi3"]] by the two spec directives, always with
    these five keys.  [spec] is what [create_spec] returned, never [None];
    the validators are what the two constructors returned. *)
Record Bag := {
  filepath : string;
  spec_route_name : string;
  spec : Spec;
  request_validator : BaseValidator;
  response_validator : BaseValidator
}.

(** ** Python values kept in the settings, the environ and view options *)

Inductive PyVal :=
| VNone
| VBool (b : bool)
| VInt (n : Z)
| VStr (s : string)
| VCodes (codes : list Z)                                  (* [200, 400, 500] *)
| VOverrides (ov : gmap string (gmap string (list Z)))     (* {path: {method: codes}} *)
| VFormatters (fmts : gmap string Formatter)
| VCallable (name : string)                                (* a function object *)
| VBag (bag : Bag).

(** Truth value of a Python object, as tested by [if x] and [not x]. *)
Definition py_truthy (v : PyVal) : bool :=
  match v with
  | VNone => false
  | VBool b => b
  | VInt n => negb (n =? 0)
  | VStr s => negb (String.eqb s "")
  | VCodes codes => match codes with [] => false | _ => true end
  | VOverrides ov => negb (bool_decide (ov = ∅))
  | VFormatters fmts => negb (bool_decide (dom fmts = (∅ : gset string)))
  | VCallable _ => true
  | VBag _ => true
  end.

Definition truthy : list string := ["t"; "true"; "y"; "yes"; "on"; "1"].

(** [pyramid.settings.asbool]: [None] is false, a bool is itself, anything
    else is true when [str(s).strip().lower()] is one of [truthy].  Of the
    integers only 1 prints as a member of [truthy]; no list, dict or function
    does. *)
Definition asbool (s : PyVal) : bool :=
  match s with
  | VNone => false
  | VBool b => b
  | VInt n => n =? 1
  | VStr s => PyStr.mem (PyStr.lower (PyStr.strip s)) truthy
  | VCodes _ | VOverrides _ | VFormatters _ | VCallable _ | VBag _ => false
  end.

(** [d.get(key, dflt)] *)
Definition dict_get (d : gmap string PyVal) (key : string) (dflt : PyVal) : PyVal :=
  default dflt (d !! key).

(** ** Exceptions and results *)

(** The context of the exception view: one of the add-on's two validation
    exceptions, each carrying its list of errors. *)
Inductive ValidationException :=
| RequestValidationError (errs : list OpenAPIError)
| ResponseValidationError (errs : list OpenAPIError).

Definition context_errors (context : ValidationException) : list OpenAPIError :=
  match context with
  | RequestValidationError errs => errs
  | ResponseValidationError errs => errs
  end.

Inductive PyExc :=
| KeyError (key : string)
| TypeError (what : string)
| ConfigurationError (msg : string)
| ValidationError (exc : ValidationException)
| MissingEndpointsError (missing : list string)
| OtherException (name : string).

Inductive Result (A : Type) :=
| Return (a : A)
| Raise (e : PyExc).

Arguments Return {A} a.
Arguments Raise {A} e.

(** Code that mutates a state [S] and may raise: the state reached so far is
    kept when an exception propagates, as mutations are in Python. *)
Definition M (S A : Type) : Type := S -> Result A * S.

Definition ret {S A} (a : A) : M S A := fun s => (Return a, s).

Definition raise {S A} (e : PyExc) : M S A := fun s => (Raise e, s).

Definition bind {S A B} (m : M S A) (k : A -> M S B) : M S B :=
  fun s => match m s with
           | (Return a, s') => k a s'
           | (Raise e, s') => (Raise e, s')
           end.

Definition get {S} : M S S := fun s => (Return s, s).

Definition modify {S} (f : S -> S) : M S unit := fun s => (Return tt, f s).

Declare Scope py_scope.
Delimit Scope py_scope with py.
Notation "x <- m ;; k" := (bind m (fun x => k))
  (at level 62, m at next level, right associativity) : py_scope.
Notation "m ;;; k" := (bind m (fun _ => k))
  (at level 62, right associativity) : py_scope.

(** Logging: what [logger.warning], [logger.error] and [logger.info] emit. *)
Inductive LogLevel := INFO | WARNING | ERROR.

Inductive LogMessage :=
| LogText (text : string)
| LogException (exc : ValidationException).

Definition LogRecord : Type := LogLevel * LogMessage.

(** ** Requests, responses and views *)

(** A Pyramid request: [request.registry.settings] (the registry is shared by
    the whole application), [request.environ], [request.application_url],
    the attribute [request.openapi_validated] (unset on a fresh request) and
    the raw data the request adapter reads. *)
Record Request := {
  req_settings : gmap string PyVal;
  req_environ : gmap string PyVal;
  req_application_url : string;
  req_openapi_validated : option RequestValidationResult;
  req_method : string;
  req_path : string;
  req_body : string;
  req_content_type : string
}.

Definition with_settings (f : gmap string PyVal -> gmap string PyVal) (r : Request) : Request :=
  {| req_settings := f (req_settings r);
     req_environ := req_environ r;
     req_application_url := req_application_url r;
     req_openapi_validated := req_openapi_validated r;
     req_method := req_method r;
     req_path := req_path r;
     req_body := req_body r;
     req_content_type := req_content_type r |}.

Definition with_environ (f : gmap string PyVal -> gmap string PyVal) (r : Request) : Request :=
  {| req_settings := req_settings r;
     req_environ := f (req_environ r);
     req_application_url := req_application_url r;
     req_openapi_validated := req_openapi_validated r;
     req_method := req_method r;
     req_path := req_path r;
     req_body := req_body r;
     req_content_type := req_content_type r |}.

Definition with_openapi_validated (v : RequestValidationResult) (r : Request) : Request :=
  {| req_settings := req_settings r;
     req_environ := req_environ r;
     req_application_url := req_application_url r;
     req_openapi_validated := Some v;
     req_method := req_method r;
     req_path := req_path r;
     req_body := req_body r;
     req_content_type := req_content_type r |}.

(** One record of the JSON error payload. *)
Record ErrorRecord := {
  er_exception : string;
  er_message : string;
  er_field : option string
}.

Record Response := {
  status_code : Z;
  text : string;
  json_body : option (list ErrorRecord)
}.

(** [View = Callable[[Context, Request], Response]], for any [Context]: a
    view may mutate the request it is given and may raise. *)
Definition View (Context : Type) : Type := Context -> M Request Response.

(** [ViewDeriverInfo]: only [info.options] is read. *)
Record ViewDeriverInfo := { options : gmap string PyVal }.

(** ** What the add-on calls and does not define

    Functions of other packages, and of this package's modules [wrappers] and
    [exceptions], whose results the code of [__init__.py] only passes on. *)
Record Externals := {
  (* RequestValidator(spec, custom_formatters=...) and
     ResponseValidator(spec, custom_formatters=...): the constructors build
     their format checker from the formatters and may raise *)
  RequestValidator : Spec -> option (gmap string Formatter) -> Result BaseValidator;
  ResponseValidator : Spec -> option (gmap string Formatter) -> Result BaseValidator;
  (* PyramidOpenAPIRequestFactory.create(request) *)
  create_openapi_request : Request -> OpenAPIRequest;
  (* validator.validate(openapi_request) of a RequestValidator *)
  validate : BaseValidator -> OpenAPIRequest -> RequestValidationResult;
  (* calling the function object stored in the settings under
     "pyramid_openapi3_extract_errors", and list() of what it yields *)
  call_extract_errors : string -> Request -> list OpenAPIError -> list ErrorRecord;
  (* urlparse(url).path *)
  urlparse_path : string -> string;
  (* read_yaml_file, validate_spec and create_spec in sequence, with the
     optional spec_url; any of them may raise *)
  load_spec : string -> option string -> Result Spec;
  (* Path(filepath).resolve(), path.as_uri(), str(path.parent), path.name *)
  path_resolve : string -> string;
  path_as_uri : string -> string;
  path_parent : string -> string;
  path_name : string -> string;
  (* AssetResolver().resolve(template).abspath() *)
  asset_abspath : string -> string;
  (* open(path).read() *)
  read_text : string -> Result string;
  (* Template(text).safe_substitute(ui_version=..., spec_url=...) *)
  safe_substitute : string -> string -> string -> string;
  (* request.route_url(route_name) *)
  route_url : Request -> string -> Result string
}.

(** ** The view deriver *)

Section ViewDeriver.

Context (E : Externals) {Ctx : Type}.

Local Open Scope py_scope.

(** [request.environ[key] = v] *)
Definition environ_set (key : string) (v : PyVal) : M Request unit :=
  modify (with_environ (fun env => <[key := v]> env)).

(** [request.registry.settings["pyramid_openapi3"]]: a [KeyError] when the
    key is absent.  On a value that is not the bag the subscript and the
    attribute assignment that follow fail, with a [TypeError], [KeyError] or
    [AttributeError] by the kind of value; the model raises [TypeError] for
    all of them. *)
Definition settings_bag : M Request Bag :=
  fun request =>
    match req_settings request !! "pyramid_openapi3" with
    | None => (Raise (KeyError "pyramid_openapi3"), request)
    | Some (VBag bag) => (Return bag, request)
    | Some _ => (Raise (TypeError "pyramid_openapi3"), request)
    end.

(** [settings["request_validator"].base_url = u] and the same on the response
    validator: the validators are the objects held by the bag in the registry
    settings, so the assignment is visible to every holder of the registry. *)
Definition refresh_base_url (bag : Bag) (u : string) : Bag :=
  {| filepath := filepath bag;
     spec_route_name := spec_route_name bag;
     spec := spec bag;
     request_validator := set_base_url (request_validator bag) u;
     response_validator := set_base_url (response_validator bag) u |}.

Definition wrapper_view (view : View Ctx) : View Ctx :=
  fun context =>
    request0 <- get ;;
    let validate_request :=
      asbool (dict_get (req_settings request0)
                "pyramid_openapi3.enable_request_validation" (VBool true)) in
    let validate_response :=
      asbool (dict_get (req_settings request0)
                "pyramid_openapi3.enable_response_validation" (VBool true)) in
    environ_set "pyramid_openapi3.validate_response" (VBool validate_response) ;;;
    settings <- settings_bag ;;
    let settings := refresh_base_url settings (req_application_url request0) in
    modify (with_settings (fun s => <["pyramid_openapi3" := VBag settings]> s)) ;;;
    (if validate_request then
       environ_set "pyramid_openapi3.validate_request" (VBool true) ;;;
       request <- get ;;
       let openapi_request := create_openapi_request E request in
       let validated := validate E (request_validator settings) openapi_request in
       modify (with_openapi_validated validated) ;;;
       match errors validated with
       | _ :: _ => raise (ValidationError (RequestValidationError (errors validated)))
       | [] => ret tt
       end
     else ret tt) ;;;
    (* Do the view *)
    view context.

(** [openapi_view(view, info)] *)
Definition openapi_view (view : View Ctx) (info : ViewDeriverInfo) : View Ctx :=
  if py_truthy (dict_get (options info) "openapi" VNone)
  then wrapper_view view
  else view.

End ViewDeriver.

(** ** The configurator *)

Record Route := { route_name : string; route_path : string }.

(** The views the add-on registers, as closures over what they captured. *)
Inductive ViewCallable :=
| SpecView (file : string)
| ExplorerView (template ui_version : string).

Record ViewRegistration := {
  view_route_name : string;
  view_permission : string;
  view_callable : ViewCallable
}.

(** What the directives and [includeme] change of a [Configurator]:
    [config.registry.settings], the routes in the order they were added, the
    views, the static views, and the names of what [includeme] hooks in. *)
Record Configurator := {
  cfg_settings : gmap string PyVal;
  cfg_routes : list (string * Route);
  cfg_views : list ViewRegistration;
  cfg_static_views : list (string * string);
  cfg_hooks : list (string * string)
}.

Definition NO_PERMISSION_REQUIRED : string := "__no_permission_required__".

Definition cfg_with_settings (f : gmap string PyVal -> gmap string PyVal) (c : Configurator) :=
  {| cfg_settings := f (cfg_settings c);
     cfg_routes := cfg_routes c;
     cfg_views := cfg_views c;
     cfg_static_views := cfg_static_views c;
     cfg_hooks := cfg_hooks c |}.

(** [config.add_route(name, pattern)] *)
Definition add_route (name pattern : string) : M Configurator unit :=
  modify (fun c =>
    {| cfg_settings := cfg_settings c;
       cfg_routes := cfg_routes c ++ [(name, {| route_name := name; route_path := pattern |})];
       cfg_views := cfg_views c;
       cfg_static_views := cfg_static_views c;
       cfg_hooks := cfg_hooks c |}).

(** [config.add_view(route_name=..., permission=..., view=...)] *)
Definition add_view (name permission : string) (view : ViewCallable) : M Configurator unit :=
  modify (fun c =>
    {| cfg_settings := cfg_settings c;
       cfg_routes := cfg_routes c;
       cfg_views := cfg_views c ++
         [{| view_route_name := name; view_permission := permission; view_callable := view |}];
       cfg_static_views := cfg_static_views c;
       cfg_hooks := cfg_hooks c |}).

(** [config.add_static_view(name, path)]: the call is recorded.  The route
    and the view that Pyramid registers of its own to serve the directory
    are behind this record and are not listed among [cfg_routes] and
    [cfg_views], which hold what [add_route] and [add_view] were called
    with. *)
Definition add_static_view (name path : string) : M Configurator unit :=
  modify (fun c =>
    {| cfg_settings := cfg_settings c;
       cfg_routes := cfg_routes c;
       cfg_views := cfg_views c;
       cfg_static_views := cfg_static_views c ++ [(name, path)];
       cfg_hooks := cfg_hooks c |}).

(** [add_view_deriver], [add_directive], [add_tween], [add_subscriber] and
    [add_exception_view]: recorded by kind and name. *)
Definition add_hook (kind name : string) : M Configurator unit :=
  modify (fun c =>
    {| cfg_settings := cfg_settings c;
       cfg_routes := cfg_routes c;
       cfg_views := cfg_views c;
       cfg_static_views := cfg_static_views c;
       cfg_hooks := cfg_hooks c ++ [(kind, name)] |}).

(** [config.action(discriminator, callable, order=PHASE0_CONFIG)]: the
    callable is what runs when the action is executed; the queue that holds
    it until then is Pyramid's. *)
Definition action {A} (discriminator : list string) (callable : M Configurator A)
  : M Configurator A := callable.

(** Lifts the result of an external call. *)
Definition lift {S A} (r : Result A) : M S A := fun s => (r, s).

Section Directives.

Context (E : Externals).

Local Open Scope py_scope.

Definition includeme : M Configurator unit :=
  add_hook "view_deriver" "openapi_view" ;;;
  add_hook "directive" "pyramid_openapi3_add_formatter" ;;;
  add_hook "directive" "pyramid_openapi3_add_explorer" ;;;
  add_hook "directive" "pyramid_openapi3_spec" ;;;
  add_hook "directive" "pyramid_openapi3_spec_directory" ;;;
  add_hook "tween" "pyramid_openapi3.tween.response_tween_factory" ;;;
  add_hook "subscriber" "validate_routes" ;;;
  add_hook "subscriber" "validate_minimal_responses" ;;;
  c <- get ;;
  (if negb (py_truthy (dict_get (cfg_settings c) "pyramid_openapi3_extract_errors" VNone))
   then modify (cfg_with_settings (fun s =>
          <["pyramid_openapi3_extract_errors" := VCallable "extract_errors"]> s))
   else ret tt) ;;;
  add_hook "exception_view" "RequestValidationError" ;;;
  add_hook "exception_view" "ResponseValidationError".

(** The body of [explorer_view], the closure [add_explorer_view] registers:
    [config.registry] is the registry of the running application, the one the
    request carries. *)
Definition explorer_view (template ui_version : string) (request : Request) : Result Response :=
  let settings := req_settings request in
  match dict_get settings "pyramid_openapi3" VNone with
  | VNone =>
      Raise (ConfigurationError
               "You need to call config.pyramid_openapi3_spec for explorer to work.")
  | VBag bag =>
      match read_text E (asset_abspath E template) with
      | Raise e => Raise e
      | Return content =>
          match route_url E request (spec_route_name bag) with
          | Raise e => Raise e
          | Return spec_url =>
              Return {| status_code := 200;
                        text := safe_substitute E content ui_version spec_url;
                        json_body := None |}
          end
      end
  | _ => Raise (TypeError "pyramid_openapi3")
  end.

(** The body of [spec_view]: a [FileResponse] of the spec file. *)
Definition spec_view (file : string) (request : Request) : Result Response :=
  match read_text E file with
  | Raise e => Raise e
  | Return content => Return {| status_code := 200; text := content; json_body := None |}
  end.

(** Calling a registered view on a request. *)
Definition call_view (v : ViewCallable) (request : Request) : Result Response :=
  match v with
  | SpecView file => spec_view file request
  | ExplorerView template ui_version => explorer_view template ui_version request
  end.

(** [add_explorer_view(config, route, route_name, template, ui_version,
    permission)] *)
Definition add_explorer_view
  (route route_name template ui_version permission : string) : M Configurator unit :=
  let register : M Configurator unit :=
    add_route route_name route ;;;
    add_view route_name permission (ExplorerView template ui_version) in
  action ["pyramid_openapi3_add_explorer"] register.

(** [add_formatter(config, name, func)] *)
Definition add_formatter (name : string) (func : Formatter) : M Configurator unit :=
  c <- get ;;
  match dict_get (cfg_settings c) "pyramid_openapi3_formatters" (VFormatters ∅) with
  | VFormatters reg =>
      modify (cfg_with_settings (fun s =>
        <["pyramid_openapi3_formatters" := VFormatters (<[name := func]> reg)]> s))
  | _ => raise (TypeError "pyramid_openapi3_formatters")
  end.

(** [settings and settings.get("spec") is not None] on what
    [config.registry.settings.get("pyramid_openapi3")] returned: the bag
    always holds a spec; a missing key, [None] and the other false values
    stop at [settings and]; a true value without [get] raises. *)
Definition spec_configured (settings : option PyVal) : Result bool :=
  match settings with
  | None => Return false
  | Some (VBag _) => Return true
  | Some (VOverrides ov) => Return (bool_decide (is_Some (ov !! "spec")))
  | Some (VFormatters fmts) => Return (bool_decide (is_Some (fmts !! "spec")))
  | Some v => if py_truthy v then Raise (TypeError "pyramid_openapi3") else Return false
  end.

Definition already_configured : string :=
  "Spec has already been configured. You may only call pyramid_openapi3_spec or pyramid_openapi3_spec_directory once".

(** [config.registry.settings.get("pyramid_openapi3_formatters")] *)
Definition get_custom_formatters (c : Configurator) : option (gmap string Formatter) :=
  match cfg_settings c !! "pyramid_openapi3_formatters" with
  | Some (VFormatters fmts) => Some fmts
  | _ => None
  end.

(** [config.registry.settings["pyramid_openapi3"] = {...}]: the values of
    the dict are evaluated in order, the request validator before the
    response validator, and the assignment takes place when both
    constructors have returned. *)
Definition store_bag (file name : string) (sp : Spec) : M Configurator unit :=
  c <- get ;;
  let custom_formatters := get_custom_formatters c in
  request_validator <- lift (RequestValidator E sp custom_formatters) ;;
  response_validator <- lift (ResponseValidator E sp custom_formatters) ;;
  modify (cfg_with_settings (fun s =>
    <["pyramid_openapi3" := VBag
        {| filepath := file;
           spec_route_name := name;
           spec := sp;
           request_validator := request_validator;
           response_validator := response_validator |}]> s)).

(** [add_spec_view(config, filepath, route, route_name, permission)].  The
    [hupper] branch, which only tells a running reloader which files to
    watch, is left out here and in the directory variant. *)
Definition add_spec_view (file route name permission : string) : M Configurator unit :=
  let register : M Configurator unit :=
    c <- get ;;
    configured <- lift (spec_configured (cfg_settings c !! "pyramid_openapi3")) ;;
    if configured : bool then raise (ConfigurationError already_configured)
    else
      sp <- lift (load_spec E file None) ;;
      add_route name route ;;;
      add_view name permission (SpecView file) ;;;
      store_bag file name sp in
  action ["pyramid_openapi3_spec"] register.

(** [add_spec_view_directory(config, filepath, route, route_name)] *)
Definition add_spec_view_directory (file route name : string) : M Configurator unit :=
  let register : M Configurator unit :=
    c <- get ;;
    configured <- lift (spec_configured (cfg_settings c !! "pyramid_openapi3")) ;;
    if configured : bool then raise (ConfigurationError already_configured)
    else if PyStr.endswith_any [".yaml"; ".yml"; ".json"] route then
      raise (ConfigurationError
               "Having route be a filename is not allowed when using a spec directory")
    else
      let path := path_resolve E file in
      let spec_url := path_as_uri E path in
      sp <- lift (load_spec E path (Some spec_url)) ;;
      add_static_view route (path_parent E path) ;;;
      add_route name (String.append route (String.append "/" (path_name E path))) ;;;
      store_bag file name sp in
  action ["pyramid_openapi3_spec"] register.

End Directives.

(** ** The exception view *)

(** [exception_response(status_code, json_body=errors)] *)
Definition exception_response (code : Z) (body : list ErrorRecord) : Response :=
  {| status_code := code; text := ""; json_body := Some body |}.

(** The [for] loop that escalates the status to 401. *)
Definition escalate (status : Z) (errs : list OpenAPIError) : Z :=
  fold_left (fun status_code error =>
               if is_InvalidSecurity error then 401 else status_code) errs status.

(** The two [if isinstance(context, ...)] statements that bind
    [status_code]; the two classes are unrelated, so exactly one applies. *)
Definition select_status_code (context : ValidationException) : Z :=
  match context with
  | RequestValidationError errs => escalate 400 errs
  | ResponseValidationError _ => 500
  end.

Section ExceptionView.

Context (E : Externals).

(** [openapi_validation_error(context, request)]: the records logged and
    the response, or the exception of a failed settings lookup. *)
Definition openapi_validation_error (context : ValidationException) (request : Request)
  : list LogRecord * Result Response :=
  let logged :=
    match context with
    | RequestValidationError _ => [(WARNING, LogException context)]
    | ResponseValidationError _ => [(ERROR, LogException context)]
    end in
  match req_settings request !! "pyramid_openapi3_extract_errors" with
  | None => (logged, Raise (KeyError "pyramid_openapi3_extract_errors"))
  | Some (VCallable extract_errors) =>
      let errors := call_extract_errors E extract_errors request (context_errors context) in
      (logged, Return (exception_response (select_status_code context) errors))
  | Some _ => (logged, Raise (TypeError "pyramid_openapi3_extract_errors"))
  end.

End ExceptionView.

(** ** The startup checks *)

(** The application handed over by [ApplicationCreated]:
    [app.registry.settings] and [app.routes_mapper.routes], a dict from route
    names to routes in the order they were added. *)
Record Router := {
  app_settings : gmap string PyVal;
  app_routes : list (string * Route)
}.

(** [f"/{path}" if not path.startswith("/") else path] *)
Definition leading_slash (path : string) : string :=
  if negb (PyStr.startswith "/" path) then String.append "/" path else path.

(** The closure [remove_prefixes], with the list [prefixes] it captured. *)
Definition remove_prefixes (prefixes : list string) (path : string) : string :=
  fold_left (fun path prefix => PyStr.replace_with_empty prefix path)
            prefixes (leading_slash path).


Section StartupChecks.

Context (E : Externals).

(** The loop that collects the path of every server URL other than "/". *)
Definition server_prefixes (sp : Spec) : list string :=
  fold_left (fun (prefixes : list string) server =>
               let path := urlparse_path E (url server) in
               if negb (String.eqb path "/") then (prefixes ++ [path])%list else prefixes)
            (servers sp) [].

(** [[remove_prefixes(route.path) for name, route in routes.items()]] *)
Definition stripped_routes (prefixes : list string) (routes : list (string * Route))
  : list string :=
  map (fun item => remove_prefixes prefixes (route_path (snd item))) routes.

(** [[r for r in paths if r not in routes]] *)
Definition missing_paths (spec_paths routes : list string) : list string :=
  List.filter (fun r => negb (PyStr.mem r routes)) spec_paths.

(** [validate_routes(event)] on [event.app]: the records logged and the
    outcome. *)
Definition validate_routes (app : Router) : list LogRecord * Result unit :=
  let openapi_settings := dict_get (app_settings app) "pyramid_openapi3" VNone in
  if negb (py_truthy openapi_settings) then
    ([(WARNING, LogText
        "pyramid_openapi3 settings not found. Did you forget to call config.pyramid_openapi3_spec?")],
     Return tt)
  else if negb (py_truthy (dict_get (app_settings app)
                             "pyramid_openapi3.enable_endpoint_validation" (VBool true))) then
    ([(INFO, LogText "Endpoint validation is disabled")], Return tt)
  else
    match openapi_settings with
    | VBag bag =>
        let prefixes := server_prefixes (spec bag) in
        let spec_paths := map fst (paths (spec bag)) in
        let routes := stripped_routes prefixes (app_routes app) in
        let missing := missing_paths spec_paths routes in
        match missing with
        | [] => ([], Return tt)
        | _ :: _ => ([], Raise (MissingEndpointsError missing))
        end
    | _ => ([], Raise (TypeError "pyramid_openapi3"))
    end.

End StartupChecks.

(** [validate_minimal_responses(event)] on [event.app]: the body reads the
    three settings into local variables, each marked as unused for the
    linter, and ends there, so the function returns [None] whatever the
    settings and the spec hold. *)
Definition validate_minimal_responses (app : Router) : Result unit :=
  let minimal_responses :=
    dict_get (app_settings app)
             "pyramid_openapi3.endpoint_validation_minimal_responses"
             (VCodes [200; 400; 500]) in
  let minimal_responses_with_parameters :=
    dict_get (app_settings app)
             "pyramid_openapi3.endpoint_validation_minimal_responses_with_parameters"
             (VCodes [404]) in
  let overrides :=
    dict_get (app_settings app)
             "pyramid_openapi3.endpoint_validation_overrides" (VOverrides ∅) in
  Return tt.

(** What the docstring of [validate_minimal_responses] and the specification
    describe, for comparison with the function above; none of it is computed
    by the code. *)
Module Described.

(** The codes an operation must declare: those of its override when the
    override mapping has an entry for its exact path and method, otherwise
    the minimal set, plus the set for parameters when it declares any. *)
Definition required_responses
  (minimal with_parameters : list Z) (overrides : gmap string (gmap string (list Z)))
  (path method : string) (op : Operation) : list Z :=
  match overrides !! path ≫= (fun by_method => by_method !! method) with
  | Some codes => codes
  | None =>
      (minimal ++ match parameters op with [] => [] | _ :: _ => with_parameters end)%list
  end.

(** The required codes an operation does not declare. *)
Definition missing_responses (required : list Z) (op : Operation) : list Z :=
  List.filter (fun code => negb (existsb (Z.eqb code) (responses op))) required.

(** Every offending (path, method) pair with the codes it misses, over all
    operations of all paths; the described checker fails when this report is
    not empty. *)
Definition report
  (minimal with_parameters : list Z) (overrides : gmap string (gmap string (list Z)))
  (sp : Spec) : list (string * string * list Z) :=
  flat_map (fun path_item =>
    flat_map (fun method_op =>
      let path := fst path_item in
      let method := fst method_op in
      let op := snd method_op in
      match missing_responses
              (required_responses minimal with_parameters overrides path method op) op with
      | [] => []
      | missing => [(path, method, missing)]
      end) (operations (snd path_item))) (paths sp).

End Described.

(** ** Data for the examples *)

Module Demo.

Definition missing_body : OpenAPIError :=
  {| err_class := MissingRequiredParameter;
     err_message := "Missing required request body";
     err_field := Some "body" |}.

Definition no_api_key : OpenAPIError :=
  {| err_class := InvalidSecurity;
     err_message := "Security not valid for any requirement";
     err_field := None |}.

(** A validator that rejects an empty body and a request without the
    parameter [apikey]. *)
Definition demo_validate (v : BaseValidator) (r : OpenAPIRequest) : RequestValidationResult :=
  {| errors :=
       ((if String.eqb (oa_body r) "" then [missing_body] else []) ++
        (if existsb (fun p => String.eqb (fst p) "apikey") (oa_parameters r)
         then [] else [no_api_key]))%list;
     validated_parameters := oa_parameters r;
     validated_body := Some (oa_body r) |}.

Definition demo_create (request : Request) : OpenAPIRequest :=
  {| full_url_pattern := String.append (req_application_url request) (req_path request);
     oa_method := req_method request;
     oa_parameters :=
       match req_environ request !! "HTTP_APIKEY" with
       | Some (VStr k) => [("apikey", k)]
       | _ => []
       end;
     oa_body := req_body request;
     oa_mimetype := req_content_type request |}.

Definition demo_extract (name : string) (request : Request) (errs : list OpenAPIError)
  : list ErrorRecord :=
  map (fun e => {| er_exception := "ValidationError";
                   er_message := err_message e;
                   er_field := err_field e |}) errs.

(** A validator as the constructors of the examples build it. *)
Definition plain_validator (sp : Spec) (fmts : option (gmap string Formatter))
  : BaseValidator :=
  {| v_spec := sp; custom_formatters := fmts; base_url := None |}.

Definition hello_spec : Spec :=
  {| servers := [{| url := "/api/v1" |}];
     paths := [("/hello", {| operations :=
                  [("get", {| parameters := ["name"]; responses := [200; 400; 500] |})] |})] |}.

(** Externals for the examples.  The server URLs used are relative
    references without query or fragment, which are their own path. *)
Definition externals : Externals :=
  {| RequestValidator := fun sp fmts => Return (plain_validator sp fmts);
     ResponseValidator := fun sp fmts => Return (plain_validator sp fmts);
     create_openapi_request := demo_create;
     validate := demo_validate;
     call_extract_errors := demo_extract;
     urlparse_path := fun u => u;
     load_spec := fun _ _ => Return hello_spec;
     path_resolve := fun p => p;
     path_as_uri := fun p => String.append "file://" p;
     path_parent := fun _ => "/srv/spec";
     path_name := fun _ => "openapi.yaml";
     asset_abspath := fun t => t;
     read_text := fun _ => Return "<html>${ui_version} ${spec_url}</html>";
     safe_substitute := fun content _ _ => content;
     route_url := fun request name => Return (String.append (req_application_url request) "/openapi.yaml") |}.

Definition empty_config : Configurator :=
  {| cfg_settings := ∅; cfg_routes := []; cfg_views := [];
     cfg_static_views := []; cfg_hooks := [] |}.

(** [config.include("pyramid_openapi3")] on a fresh configurator. *)
Definition included : Configurator := snd (includeme empty_config).

(** ... followed by [config.pyramid_openapi3_spec("openapi.yaml")]. *)
Definition with_spec : Configurator :=
  snd (add_spec_view externals "openapi.yaml" "/openapi.yaml" "pyramid_openapi3.spec"
         NO_PERMISSION_REQUIRED included).

(** ... or by [config.pyramid_openapi3_add_explorer()] alone. *)
Definition with_explorer_only : Configurator :=
  snd (add_explorer_view "/docs/" "pyramid_openapi3.explorer" "static/index.html" "3.17.1"
         NO_PERMISSION_REQUIRED included).

(** A request to an application configured as [c]. *)
Definition request_to (c : Configurator) (path body : string) : Request :=
  {| req_settings := cfg_settings c;
     req_environ := ∅;
     req_application_url := "http://localhost";
     req_openapi_validated := None;
     req_method := "POST";
     req_path := path;
     req_body := body;
     req_content_type := "application/json" |}.

(** The bag that [with_spec] holds. *)
Definition hello_bag : Bag :=
  {| filepath := "openapi.yaml";
     spec_route_name := "pyramid_openapi3.spec";
     spec := hello_spec;
     request_validator := plain_validator hello_spec None;
     response_validator := plain_validator hello_spec None |}.

(** A request to an application whose settings, as read from an ini file,
    switch request validation off. *)
Definition unvalidated_request (path body : string) : Request :=
  with_settings
    (fun s => <["pyramid_openapi3.enable_request_validation" := VStr "false"]> s)
    (request_to with_spec path body).

Definition ok_response : Response :=
  {| status_code := 200; text := "hello"; json_body := None |}.

(** A handler with a visible side effect: it leaves a mark in the environ. *)
Definition marking_view : View unit :=
  fun _ => bind (modify (with_environ (fun env => <["handler.called" := VBool true]> env)))
                (fun _ => ret ok_response).

Definition openapi_info : ViewDeriverInfo :=
  {| options := {["openapi" := VBool true]} |}.

Definition plain_info : ViewDeriverInfo := {| options := ∅ |}.

(** The application made from a configurator. *)
Definition make_app (c : Configurator) : Router :=
  {| app_settings := cfg_settings c; app_routes := cfg_routes c |}.

(** An application with the spec registered, no route for its path
    "/hello", and endpoint validation switched off. *)
Definition disabled_app : Router :=
  {| app_settings :=
       <["pyramid_openapi3.enable_endpoint_validation" := VBool false]> (cfg_settings with_spec);
     app_routes := cfg_routes with_spec |}.

(** An application whose spec is served under the prefix "/api/v1" and whose
    route for "/hello" is registered under that prefix. *)
Definition prefixed_app : Router :=
  {| app_settings := cfg_settings with_spec;
     app_routes := [("hello", {| route_name := "hello"; route_path := "/api/v1/hello" |})] |}.

(** An application with the spec registered, no route for "/hello", and the
    endpoint-validation setting given as the string an ini file holds. *)
Definition ini_disabled_app : Router :=
  {| app_settings :=
       <["pyramid_openapi3.enable_endpoint_validation" := VStr "false"]> (cfg_settings with_spec);
     app_routes := [] |}.

(** A custom formatter for a string format. *)
Definition upper_formatter : Formatter := fun v => String.append "U:" v.

(** Externals whose request validator cannot be built with a formatter
    registered under "plain", the way [openapi_core] fails on a formatter
    that is a plain function. *)
Definition strict_externals : Externals :=
  {| RequestValidator := fun sp fmts =>
       match fmts with
       | Some reg =>
           if bool_decide (is_Some (reg !! "plain"))
           then Raise (OtherException "AttributeError")
           else Return (plain_validator sp fmts)
       | None => Return (plain_validator sp fmts)
       end;
     ResponseValidator := ResponseValidator externals;
     create_openapi_request := create_openapi_request externals;
     validate := validate externals;
     call_extract_errors := call_extract_errors externals;
     urlparse_path := urlparse_path externals;
     load_spec := load_spec externals;
     path_resolve := path_resolve externals;
     path_as_uri := path_as_uri externals;
     path_parent := path_parent externals;
     path_name := path_name externals;
     asset_abspath := asset_abspath externals;
     read_text := read_text externals;
     safe_substitute := safe_substitute externals;
     route_url := route_url externals |}.

(** The configurator of an application that included the add-on and
    registered such a formatter. *)
Definition with_plain_formatter : Configurator :=
  snd (add_formatter "plain" upper_formatter included).

End Demo.

(** * Properties *)

(** ** Strings *)

Module PyStrFacts.
Import PyStr.

Lemma append_cons (c : ascii) (s t : string) : String c s +:+ t = String c (s +:+ t).
Proof. reflexivity. Qed.

Lemma startswith_app (p s : string) : startswith p (p +:+ s) = true.
Proof.
  induction p as [|a p IH]; simpl; [reflexivity|].
  rewrite Ascii.eqb_refl. exact IH.
Qed.

Lemma startswith_split (p s : string) :
  startswith p s = true -> s = p +:+ drop (String.length p) s.
Proof.
  revert s. induction p as [|a p IH]; intros s H; simpl in *; [reflexivity|].
  destruct s as [|b s]; [discriminate|].
  apply andb_prop in H as [Hab Hps].
  apply Ascii.eqb_eq in Hab. subst b.
  change (String a s = String a (p +:+ drop (String.length p) s)).
  f_equal. apply IH, Hps.
Qed.

Lemma take_drop (n : nat) (s : string) : take n s +:+ drop n s = s.
Proof.
  revert s. induction n as [|n IH]; intros s; simpl; [reflexivity|].
  destruct s as [|c s]; simpl; [reflexivity|].
  rewrite append_cons. f_equal. apply IH.
Qed.

Lemma drop_drop (n m : nat) (s : string) : drop n (drop m s) = drop (m + n) s.
Proof.
  revert s. induction m as [|m IH]; intros s; simpl; [reflexivity|].
  destruct s as [|c s]; simpl; [|apply IH].
  destruct n; reflexivity.
Qed.

(** Skipping [k] characters is resuming the scan [k] characters further. *)
Lemma remove_scan_skip (old : string) (k : nat) (s : string) :
  remove_scan old k s = remove_scan old O (drop k s).
Proof.
  revert k. induction s as [|c s IH]; intros k.
  - destruct k; reflexivity.
  - destruct k as [|k]; [reflexivity|]. simpl. apply IH.
Qed.

(** An occurrence at the head of the string is dropped whole. *)
Lemma replace_at_occurrence (old s : string) :
  old <> "" -> startswith old s = true ->
  replace_with_empty old s = replace_with_empty old (drop (String.length old) s).
Proof.
  intros Hne H. destruct old as [|a old]; [congruence|].
  unfold replace_with_empty.
  destruct s as [|c s]; [simpl in H; discriminate|].
  cbn [remove_scan]. rewrite H.
  rewrite remove_scan_skip. reflexivity.
Qed.

(** Where no occurrence starts, the character is kept. *)
Lemma replace_keep_char (old : string) (c : ascii) (s : string) :
  startswith old (String c s) = false ->
  replace_with_empty old (String c s) = String c (replace_with_empty old s).
Proof.
  intros H. destruct old as [|a old]; [simpl in H; discriminate|].
  unfold replace_with_empty. cbn [remove_scan]. rewrite H. reflexivity.
Qed.

(** [replace] in terms of [find]: the text before the first occurrence is
    kept, the occurrence goes, and the rest is treated the same way. *)
Lemma replace_at_find (old s : string) (i : nat) :
  old <> "" -> find old s = Some i ->
  replace_with_empty old s
  = take i s +:+ replace_with_empty old (drop (i + String.length old) s).
Proof.
  intros Hne. revert i. induction s as [|c s IH]; intros i H.
  - simpl in H. destruct (startswith old "") eqn:Hs; [|discriminate].
    destruct old; [congruence|discriminate].
  - cbn [find] in H. destruct (startswith old (String c s)) eqn:Hs.
    + injection H as <-. simpl take. simpl plus.
      now apply replace_at_occurrence.
    + destruct (find old s) as [j|] eqn:Hj; [|discriminate].
      simpl in H. injection H as <-.
      rewrite replace_keep_char by exact Hs.
      rewrite (IH j eq_refl). simpl. now rewrite append_cons.
Qed.

Lemma replace_no_occurrence (old s : string) :
  find old s = None -> replace_with_empty old s = s.
Proof.
  induction s as [|c s IH]; intros H.
  - destruct old; reflexivity.
  - cbn [find] in H. destruct (startswith old (String c s)) eqn:Hs; [discriminate|].
    destruct (find old s); [discriminate|].
    rewrite replace_keep_char by exact Hs. now rewrite IH.
Qed.

(** [find] returns an index at which the string does occur. *)
Lemma find_occurs (old s : string) (i : nat) :
  find old s = Some i -> startswith old (drop i s) = true.
Proof.
  revert i. induction s as [|c s IH]; intros i H.
  - simpl in H. destruct (startswith old "") eqn:Hs; [|discriminate].
    injection H as <-. exact Hs.
  - cbn [find] in H. destruct (startswith old (String c s)) eqn:Hs.
    + injection H as <-. exact Hs.
    + destruct (find old s) as [j|]; [|discriminate].
      injection H as <-. simpl. now apply IH.
Qed.

(** ... so the string is the text before the index, the occurrence, and
    the rest. *)
Lemma find_split (old s : string) (i : nat) :
  find old s = Some i ->
  s = take i s +:+ (old +:+ drop (i + String.length old) s).
Proof.
  intros H. apply find_occurs in H. apply startswith_split in H.
  rewrite drop_drop in H. rewrite <- H. symmetry. apply take_drop.
Qed.

End PyStrFacts.

(** ** Prefix removal in the endpoint coverage checker *)

Lemma fold_left_collect {A B : Type} (keep : A -> bool) (f : A -> B) (l : list A) (acc : list B) :
  fold_left (fun (acc : list B) x => if keep x then (acc ++ [f x])%list else acc) l acc
  = (acc ++ map f (List.filter keep l))%list.
Proof.
  revert acc. induction l as [|x l IH]; intros acc; simpl.
  - now rewrite app_nil_r.
  - rewrite IH. destruct (keep x); simpl; [|reflexivity].
    now rewrite <- app_assoc.
Qed.

(** The prefixes are the paths of the server URLs, in order, without "/". *)
Lemma server_prefixes_filter (E : Externals) (sp : Spec) :
  server_prefixes E sp
  = List.filter (fun path => negb (String.eqb path "/"))
                (map (fun server => urlparse_path E (url server)) (servers sp)).
Proof.
  unfold server_prefixes.
  rewrite (fold_left_collect
             (fun server => negb (String.eqb (urlparse_path E (url server)) "/"))
             (fun server => urlparse_path E (url server))).
  simpl. induction (servers sp) as [|s l IH]; simpl; [reflexivity|].
  destruct (negb (String.eqb (urlparse_path E (url s)) "/")); simpl; now rewrite IH.
Qed.




(** ** The exception view *)

Lemma escalate_existsb (status : Z) (errs : list OpenAPIError) :
  escalate status errs = if existsb is_InvalidSecurity errs then 401 else status.
Proof.
  revert status. induction errs as [|e errs IH]; intros status; [reflexivity|].
  unfold escalate in *. simpl. rewrite IH.
  destruct (is_InvalidSecurity e); simpl; [|reflexivity].
  now destruct (existsb is_InvalidSecurity errs).
Qed.

Lemma is_InvalidSecurity_class (e : OpenAPIError) :
  is_InvalidSecurity e = true <-> err_class e = InvalidSecurity.
Proof.
  unfold is_InvalidSecurity. destruct (err_class e); split; congruence.
Qed.

(** C2.  The status of the response of the exception view: for a
    [RequestValidationError] it is 401 when some error of its list is an
    [InvalidSecurity] and 400 otherwise; for a [ResponseValidationError] it
    is 500 whatever errors it carries.  The view is the one [includeme]
    registers, on an application where [includeme] has stored the function
    that extracts the errors. *)
Theorem error_view_status (E : Externals) (context : ValidationException)
  (request : Request) (extract_errors : string) :
  req_settings request !! "pyramid_openapi3_extract_errors" = Some (VCallable extract_errors) ->
  exists response,
    snd (openapi_validation_error E context request) = Return response
    /\ json_body response
       = Some (call_extract_errors E extract_errors request (context_errors context))
    /\ (forall errs, context = RequestValidationError errs ->
          ((exists error, In error errs /\ err_class error = InvalidSecurity) ->
             status_code response = 401)
          /\ ((forall error, In error errs -> err_class error <> InvalidSecurity) ->
             status_code response = 400))
    /\ (forall errs, context = ResponseValidationError errs -> status_code response = 500).
Proof.
  intros Hsetting. unfold openapi_validation_error. rewrite Hsetting.
  eexists. split; [reflexivity|]. split; [reflexivity|]. split.
  - intros errs ->. simpl. rewrite escalate_existsb. split.
    + intros (error & Hin & Hclass).
      assert (existsb is_InvalidSecurity errs = true) as ->; [|reflexivity].
      apply existsb_exists. exists error. split; [exact Hin|].
      now apply is_InvalidSecurity_class.
    + intros Hnone.
      destruct (existsb is_InvalidSecurity errs) eqn:Hex; [|reflexivity].
      apply existsb_exists in Hex as (error & Hin & Hsec).
      apply is_InvalidSecurity_class in Hsec. now apply Hnone in Hin.
  - intros errs ->. reflexivity.
Qed.

Lemma error_view_status_witness :
  exists response,
    snd (openapi_validation_error Demo.externals
           (RequestValidationError [Demo.missing_body; Demo.no_api_key])
           (Demo.request_to Demo.with_spec "/hello" "")) = Return response
    /\ status_code response = 401.
Proof.
  destruct (error_view_status Demo.externals
              (RequestValidationError [Demo.missing_body; Demo.no_api_key])
              (Demo.request_to Demo.with_spec "/hello" "") "extract_errors" eq_refl)
    as (response & Hret & _ & Hrequest & _).
  exists response. split; [exact Hret|].
  apply (Hrequest _ eq_refl). exists Demo.no_api_key. split; [|reflexivity].
  right. left. reflexivity.
Defined.

(** ** The request validation gate *)

(** The request as the wrapper has prepared it when it reaches the test of
    [validate_request]: the response flag is in the environ and the base URL
    of both validators is the application URL. *)
Lemma wrapper_view_prepares (E : Externals) {Ctx : Type}
  (view : View Ctx) (context : Ctx) (request : Request) (bag : Bag) :
  req_settings request !! "pyramid_openapi3" = Some (VBag bag) ->
  let validate_response :=
    asbool (dict_get (req_settings request)
              "pyramid_openapi3.enable_response_validation" (VBool true)) in
  let settings := refresh_base_url bag (req_application_url request) in
  let prepared :=
    with_settings (fun s => <["pyramid_openapi3" := VBag settings]> s)
      (with_environ
         (fun env => <["pyramid_openapi3.validate_response" := VBool validate_response]> env)
         request) in
  wrapper_view E view context request
  = if asbool (dict_get (req_settings request)
                 "pyramid_openapi3.enable_request_validation" (VBool true))
    then
      let checked :=
        with_environ (fun env => <["pyramid_openapi3.validate_request" := VBool true]> env)
                     prepared in
      let validated :=
        validate E (request_validator settings) (create_openapi_request E checked) in
      match errors validated with
      | _ :: _ =>
          (Raise (ValidationError (RequestValidationError (errors validated))),
           with_openapi_validated validated checked)
      | [] => view context (with_openapi_validated validated checked)
      end
    else view context prepared.
Proof.
  intros Hbag. unfold wrapper_view, bind, get, environ_set, modify, settings_bag, raise, ret.
  cbn -[asbool dict_get]. rewrite Hbag.
  destruct (asbool (dict_get (req_settings request)
                      "pyramid_openapi3.enable_request_validation" (VBool true)));
    cbn -[asbool dict_get]; [|reflexivity].
  destruct (errors _); reflexivity.
Qed.

(** With a true [openapi] option the derived view is the wrapper. *)
Lemma openapi_view_wraps (E : Externals) {Ctx : Type} (view : View Ctx)
  (info : ViewDeriverInfo) :
  py_truthy (dict_get (options info) "openapi" VNone) = true ->
  openapi_view E view info = wrapper_view E view.
Proof. intros H. unfold openapi_view. now rewrite H. Qed.

Section Gate.

Context (E : Externals) {Ctx : Type}.

(** C1.  For a view derived with a true [openapi] option, with request
    validation enabled, on an application whose spec is registered: the
    wrapper stores the validation result in [request.openapi_validated];
    when the result has errors it raises [RequestValidationError] with
    exactly these errors, from a state in which the result is stored, and
    what it does is the same for every handler, so the handler is not run;
    when the error list is empty the outcome is the handler's, run on the
    request that holds the result. *)
Theorem request_validation_gate (view : View Ctx) (info : ViewDeriverInfo)
  (context : Ctx) (request : Request) (bag : Bag) :
  py_truthy (dict_get (options info) "openapi" VNone) = true ->
  req_settings request !! "pyramid_openapi3" = Some (VBag bag) ->
  asbool (dict_get (req_settings request)
            "pyramid_openapi3.enable_request_validation" (VBool true)) = true ->
  let validate_response :=
    asbool (dict_get (req_settings request)
              "pyramid_openapi3.enable_response_validation" (VBool true)) in
  let settings := refresh_base_url bag (req_application_url request) in
  let checked :=
    with_environ (fun env => <["pyramid_openapi3.validate_request" := VBool true]> env)
      (with_settings (fun s => <["pyramid_openapi3" := VBag settings]> s)
         (with_environ
            (fun env => <["pyramid_openapi3.validate_response" := VBool validate_response]> env)
            request)) in
  let validated :=
    validate E (request_validator settings) (create_openapi_request E checked) in
  let stored := with_openapi_validated validated checked in
  req_openapi_validated stored = Some validated
  /\ (errors validated <> [] ->
        openapi_view E view info context request
        = (Raise (ValidationError (RequestValidationError (errors validated))), stored)
        /\ forall other : View Ctx,
            openapi_view E other info context request = openapi_view E view info context request)
  /\ (errors validated = [] ->
        openapi_view E view info context request = view context stored).
Proof.
  intros Hopt Hbag Hflag validate_response settings checked validated stored.
  split; [reflexivity|].
  assert (Hrun : forall v : View Ctx,
             openapi_view E v info context request
             = match errors validated with
               | _ :: _ =>
                   (Raise (ValidationError (RequestValidationError (errors validated))), stored)
               | [] => v context stored
               end).
  { intros v. rewrite (openapi_view_wraps E v info Hopt).
    rewrite (wrapper_view_prepares E v context request bag Hbag).
    rewrite Hflag. reflexivity. }
  split.
  - intros Herrors. split.
    + rewrite Hrun. destruct (errors validated); [congruence|reflexivity].
    + intros other. rewrite (Hrun other), (Hrun view).
      destruct (errors validated); [congruence|reflexivity].
  - intros Herrors. now rewrite Hrun, Herrors.
Qed.

(** The flag a setting gives: true when the key is absent, else [asbool]
    of the value. *)
Lemma flag_default (settings : gmap string PyVal) (key : string) :
  asbool (dict_get settings key (VBool true))
  = match settings !! key with None => true | Some v => asbool v end.
Proof. unfold dict_get. now destruct (settings !! key). Qed.

(** C9.  For a view derived with a true [openapi] option, each flag being
    true when its setting is absent and [asbool] of the setting otherwise:
    the response flag, true or false, is in the environ of the one request
    state that the handler receives or that the wrapper raises from,
    whatever the handler is; on an application whose spec is registered,
    with the request flag false the outcome is the handler's own, on a
    request whose validation result is untouched and whose environ gained
    the response flag only, and it does not depend on the validator or the
    request adapter; with the request flag true, so also when it is unset,
    the request is validated, and the outcome is the validation error or the
    handler's, run on the request that holds the result. *)
Theorem validation_flags (info : ViewDeriverInfo) (context : Ctx) (request : Request) :
  py_truthy (dict_get (options info) "openapi" VNone) = true ->
  let validate_request :=
    match req_settings request !! "pyramid_openapi3.enable_request_validation" with
    | None => true
    | Some v => asbool v
    end in
  let validate_response :=
    match req_settings request !! "pyramid_openapi3.enable_response_validation" with
    | None => true
    | Some v => asbool v
    end in
  let flagged :=
    with_environ
      (fun env => <["pyramid_openapi3.validate_response" := VBool validate_response]> env)
      request in
  (exists received,
      req_environ received !! "pyramid_openapi3.validate_response"
      = Some (VBool validate_response)
      /\ forall view : View Ctx,
          openapi_view E view info context request = view context received
          \/ exists e, openapi_view E view info context request = (Raise e, received))
  /\ (forall bag,
         req_settings request !! "pyramid_openapi3" = Some (VBag bag) ->
         let settings := refresh_base_url bag (req_application_url request) in
         let prepared :=
           with_settings (fun s => <["pyramid_openapi3" := VBag settings]> s) flagged in
         (validate_request = false ->
          req_openapi_validated prepared = req_openapi_validated request
          /\ req_environ prepared
             = <["pyramid_openapi3.validate_response" := VBool validate_response]>
                 (req_environ request)
          /\ forall view : View Ctx,
              openapi_view E view info context request = view context prepared
              /\ forall E' : Externals,
                  openapi_view E' view info context request
                  = openapi_view E view info context request)
         /\ (validate_request = true ->
             let checked :=
               with_environ
                 (fun env => <["pyramid_openapi3.validate_request" := VBool true]> env)
                 prepared in
             let validated :=
               validate E (request_validator settings) (create_openapi_request E checked) in
             let stored := with_openapi_validated validated checked in
             forall view : View Ctx,
               openapi_view E view info context request
               = match errors validated with
                 | [] => view context stored
                 | _ :: _ =>
                     (Raise (ValidationError (RequestValidationError (errors validated))),
                      stored)
                 end)).
Proof.
  intros Hopt validate_request validate_response flagged.
  assert (Hbagged : forall (E0 : Externals) (view : View Ctx) bag,
             req_settings request !! "pyramid_openapi3" = Some (VBag bag) ->
             openapi_view E0 view info context request
             = if validate_request
               then
                 let settings := refresh_base_url bag (req_application_url request) in
                 let checked :=
                   with_environ
                     (fun env => <["pyramid_openapi3.validate_request" := VBool true]> env)
                     (with_settings (fun s => <["pyramid_openapi3" := VBag settings]> s)
                        flagged) in
                 let validated :=
                   validate E0 (request_validator settings)
                            (create_openapi_request E0 checked) in
                 match errors validated with
                 | _ :: _ =>
                     (Raise (ValidationError (RequestValidationError (errors validated))),
                      with_openapi_validated validated checked)
                 | [] => view context (with_openapi_validated validated checked)
                 end
               else
                 view context
                   (with_settings
                      (fun s =>
                         <["pyramid_openapi3" :=
                             VBag (refresh_base_url bag (req_application_url request))]> s)
                      flagged)).
  { intros E0 view bag Hbag. rewrite (openapi_view_wraps E0 view info Hopt).
    rewrite (wrapper_view_prepares E0 view context request bag Hbag).
    rewrite !flag_default. reflexivity. }
  split.
  - destruct (req_settings request !! "pyramid_openapi3") as [v|] eqn:Hbag.
    + destruct v as [| | | | | | | |bag];
        try (exists flagged; split; [apply lookup_insert_eq|];
             intros view; right; eexists;
             rewrite (openapi_view_wraps E view info Hopt);
             unfold wrapper_view, bind, get, environ_set, modify, settings_bag;
             cbn -[asbool dict_get]; rewrite Hbag, flag_default; reflexivity).
      destruct validate_request eqn:Hflag.
      * cbv zeta in Hbagged.
        destruct (errors (validate E
                    (request_validator (refresh_base_url bag (req_application_url request)))
                    (create_openapi_request E
                       (with_environ
                          (fun env =>
                             <["pyramid_openapi3.validate_request" := VBool true]> env)
                          (with_settings
                             (fun s =>
                                <["pyramid_openapi3" :=
                                    VBag (refresh_base_url bag
                                            (req_application_url request))]> s)
                             flagged))))) as [|err errs] eqn:Herrors.
        -- eexists. split; [|intros view; left; rewrite (Hbagged E view bag eq_refl);
                             rewrite Herrors; reflexivity].
           cbn -[asbool dict_get]. rewrite lookup_insert_ne by discriminate.
           apply lookup_insert_eq.
        -- eexists. split; [|intros view; right; eexists;
                             rewrite (Hbagged E view bag eq_refl);
                             rewrite Herrors; reflexivity].
           cbn -[asbool dict_get]. rewrite lookup_insert_ne by discriminate.
           apply lookup_insert_eq.
      * eexists. split; [|intros view; left; apply (Hbagged E view bag eq_refl)].
        cbn -[asbool dict_get]. apply lookup_insert_eq.
    + exists flagged. split; [apply lookup_insert_eq|].
      intros view. right. eexists. rewrite (openapi_view_wraps E view info Hopt).
      unfold wrapper_view, bind, get, environ_set, modify, settings_bag.
      cbn -[asbool dict_get]. rewrite Hbag, flag_default. reflexivity.
  - intros bag Hbag settings prepared. split.
    + intros Hflag. split; [reflexivity|]. split; [reflexivity|].
      intros view. split.
      * rewrite (Hbagged E view bag Hbag), Hflag. reflexivity.
      * intros E'. rewrite (Hbagged E' view bag Hbag), (Hbagged E view bag Hbag), Hflag.
        reflexivity.
    + intros Hflag checked validated stored view.
      rewrite (Hbagged E view bag Hbag), Hflag. cbv zeta.
      fold settings prepared checked validated stored.
      destruct (errors validated); reflexivity.
Qed.

(** C10.  A view whose options hold no true [openapi] entry is returned as
    it is by the deriver: the derived view is the original one, so on every
    request it does what the original does and nothing else. *)
Theorem openapi_view_identity (view : View Ctx) (info : ViewDeriverInfo) :
  (options info !! "openapi" = None
   \/ exists v, options info !! "openapi" = Some v /\ py_truthy v = false) ->
  openapi_view E view info = view
  /\ forall context request, openapi_view E view info context request = view context request.
Proof.
  intros Hopt.
  assert (Heq : openapi_view E view info = view).
  { unfold openapi_view, dict_get.
    destruct Hopt as [-> | (v & -> & Hv)]; simpl; [reflexivity|now rewrite Hv]. }
  split; [exact Heq|]. intros context request. now rewrite Heq.
Qed.

End Gate.

Lemma request_validation_gate_witness :
  openapi_view Demo.externals Demo.marking_view Demo.openapi_info tt
    (Demo.request_to Demo.with_spec "/hello" "")
  = openapi_view Demo.externals (fun _ => ret Demo.ok_response) Demo.openapi_info tt
      (Demo.request_to Demo.with_spec "/hello" "").
Proof.
  pose proof (request_validation_gate Demo.externals Demo.marking_view Demo.openapi_info tt
                (Demo.request_to Demo.with_spec "/hello" "") Demo.hello_bag) as W.
  cbv zeta in W.
  destruct W as (_ & Hraise & _);
    [reflexivity | vm_compute; reflexivity | reflexivity |].
  destruct Hraise as [_ Hsame]; [vm_compute; discriminate|].
  symmetry. apply Hsame.
Defined.

Lemma validation_flags_witness :
  fst (openapi_view Demo.externals Demo.marking_view Demo.openapi_info tt
         (Demo.unvalidated_request "/hello" ""))
  = Return Demo.ok_response
  /\ fst (openapi_view Demo.externals Demo.marking_view Demo.openapi_info tt
            (Demo.request_to Demo.with_spec "/hello" ""))
     = Raise (ValidationError
                (RequestValidationError [Demo.missing_body; Demo.no_api_key])).
Proof.
  split.
  - pose proof (validation_flags Demo.externals (Ctx := unit) Demo.openapi_info tt
                  (Demo.unvalidated_request "/hello" "") eq_refl) as W.
    cbv zeta in W. destruct W as [_ Hbag].
    destruct (Hbag Demo.hello_bag ltac:(vm_compute; reflexivity)) as [Hoff _].
    destruct (Hoff ltac:(vm_compute; reflexivity)) as (_ & _ & Hrun).
    rewrite (proj1 (Hrun Demo.marking_view)). reflexivity.
  - pose proof (validation_flags Demo.externals (Ctx := unit) Demo.openapi_info tt
                  (Demo.request_to Demo.with_spec "/hello" "") eq_refl) as W.
    cbv zeta in W. destruct W as [_ Hbag].
    destruct (Hbag Demo.hello_bag ltac:(vm_compute; reflexivity)) as [_ Hon].
    rewrite (Hon ltac:(vm_compute; reflexivity) Demo.marking_view).
    vm_compute. reflexivity.
Defined.

Lemma openapi_view_identity_witness :
  openapi_view Demo.externals Demo.marking_view Demo.plain_info = Demo.marking_view.
Proof.
  apply (openapi_view_identity Demo.externals Demo.marking_view Demo.plain_info).
  left. reflexivity.
Defined.

(** ** The spec and explorer directives *)

Section DirectiveFacts.

Context (E : Externals).

Lemma add_spec_view_stores_bag (c : Configurator) (file route name permission : string) :
  fst (add_spec_view E file route name permission c) = Return tt ->
  exists bag,
    cfg_settings (snd (add_spec_view E file route name permission c)) !! "pyramid_openapi3"
    = Some (VBag bag).
Proof.
  unfold add_spec_view, action, bind, get, lift, raise, store_bag, add_route, add_view, modify.
  destruct (spec_configured (cfg_settings c !! "pyramid_openapi3")) as [[|]|e];
    cbn; try discriminate.
  destruct (load_spec E file None) as [sp|e]; cbn; try discriminate.
  destruct (RequestValidator E sp _) as [rv|e]; cbn; try discriminate.
  destruct (ResponseValidator E sp _) as [pv|e]; cbn; try discriminate.
  intros _. eexists. apply lookup_insert_eq.
Qed.

Lemma add_spec_view_directory_stores_bag (c : Configurator) (file route name : string) :
  fst (add_spec_view_directory E file route name c) = Return tt ->
  exists bag,
    cfg_settings (snd (add_spec_view_directory E file route name c)) !! "pyramid_openapi3"
    = Some (VBag bag).
Proof.
  unfold add_spec_view_directory, action, bind, get, lift, raise, store_bag, add_route,
    add_static_view, modify.
  destruct (spec_configured (cfg_settings c !! "pyramid_openapi3")) as [[|]|e];
    cbn -[PyStr.endswith_any]; try discriminate.
  destruct (PyStr.endswith_any [".yaml"; ".yml"; ".json"] route); cbn; try discriminate.
  destruct (load_spec E (path_resolve E file) (Some (path_as_uri E (path_resolve E file))))
    as [sp|e]; cbn; try discriminate.
  destruct (RequestValidator E sp _) as [rv|e]; cbn; try discriminate.
  destruct (ResponseValidator E sp _) as [pv|e]; cbn; try discriminate.
  intros _. eexists. apply lookup_insert_eq.
Qed.

(** C5.  A successful call of either spec directive leaves the bag in the
    settings; on a configurator that holds the bag, either directive, with
    any arguments, raises [ConfigurationError] and leaves the whole
    configurator, hence the spec, the validators and the route name of the
    bag, as it was. *)
Theorem spec_registered_once :
  (forall c file route name permission,
      fst (add_spec_view E file route name permission c) = Return tt ->
      exists bag,
        cfg_settings (snd (add_spec_view E file route name permission c))
          !! "pyramid_openapi3" = Some (VBag bag))
  /\ (forall c file route name,
         fst (add_spec_view_directory E file route name c) = Return tt ->
         exists bag,
           cfg_settings (snd (add_spec_view_directory E file route name c))
             !! "pyramid_openapi3" = Some (VBag bag))
  /\ (forall c bag,
         cfg_settings c !! "pyramid_openapi3" = Some (VBag bag) ->
         (forall file route name permission,
             add_spec_view E file route name permission c
             = (Raise (ConfigurationError already_configured), c))
         /\ (forall file route name,
                add_spec_view_directory E file route name c
                = (Raise (ConfigurationError already_configured), c))).
Proof.
  split; [apply add_spec_view_stores_bag|].
  split; [apply add_spec_view_directory_stores_bag|].
  intros c bag Hbag. split; intros;
    unfold add_spec_view, add_spec_view_directory, action, bind, get, lift, raise;
    rewrite Hbag; reflexivity.
Qed.


End DirectiveFacts.

Lemma spec_registered_once_witness :
  add_spec_view_directory Demo.externals "spec/openapi.yaml" "/spec" "other" Demo.with_spec
  = (Raise (ConfigurationError already_configured), Demo.with_spec).
Proof.
  apply (proj2 (proj2 (spec_registered_once Demo.externals)) Demo.with_spec Demo.hello_bag).
  vm_compute. reflexivity.
Defined.



(** ** The endpoint coverage checker *)

Lemma mem_In (x : string) (l : list string) : PyStr.mem x l = true <-> In x l.
Proof.
  unfold PyStr.mem. rewrite existsb_exists. split.
  - intros (y & Hin & Heq). apply String.eqb_eq in Heq. now subst.
  - intros Hin. exists x. split; [exact Hin|apply String.eqb_refl].
Qed.

Lemma missing_paths_In (spec_paths routes : list string) (p : string) :
  In p (missing_paths spec_paths routes) <-> In p spec_paths /\ ~ In p routes.
Proof.
  unfold missing_paths. rewrite filter_In, negb_true_iff.
  rewrite <- (mem_In p routes). destruct (PyStr.mem p routes); intuition congruence.
Qed.

Lemma missing_paths_nil (spec_paths routes : list string) :
  missing_paths spec_paths routes = [] <-> forall p, In p spec_paths -> In p routes.
Proof.
  split.
  - intros Hnil p Hp. destruct (PyStr.mem p routes) eqn:Hmem; [now apply mem_In|].
    assert (Hin : In p (missing_paths spec_paths routes)).
    { apply missing_paths_In. split; [exact Hp|].
      rewrite <- mem_In. congruence. }
    rewrite Hnil in Hin. destruct Hin.
  - intros Hall. destruct (missing_paths spec_paths routes) as [|p l] eqn:Hm; [reflexivity|].
    assert (Hin : In p (missing_paths spec_paths routes)) by (rewrite Hm; now left).
    apply missing_paths_In in Hin as [Hp Hnot]. now apply Hall in Hp.
Qed.

Section CoverageFacts.

Context (E : Externals).

(** With the bag in the settings and no false value under the
    endpoint-validation key, the outcome is decided by the missing paths. *)
Lemma validate_routes_checks (app : Router) (bag : Bag) :
  app_settings app !! "pyramid_openapi3" = Some (VBag bag) ->
  py_truthy (dict_get (app_settings app)
               "pyramid_openapi3.enable_endpoint_validation" (VBool true)) = true ->
  validate_routes E app
  = ([], match missing_paths (map fst (paths (spec bag)))
                 (stripped_routes (server_prefixes E (spec bag)) (app_routes app)) with
         | [] => Return tt
         | missing => Raise (MissingEndpointsError missing)
         end).
Proof.
  intros Hbag Hflag. unfold validate_routes.
  rewrite Hflag. unfold dict_get at 1 2. rewrite Hbag.
  cbn [default from_option id py_truthy negb].
  now destruct (missing_paths _ _).
Qed.

(** C8.  The checker returns without an error, whatever the routes are, in
    two cases: when the settings hold no bag (no key, or a false value), with
    a warning logged; and when the endpoint-validation setting holds a false
    value, with a note logged when the bag is there.  In the remaining case,
    the bag present and the setting absent or true, the routes are checked:
    the checker returns exactly when no spec path is missing. *)
Theorem coverage_checker_skips (settings : gmap string PyVal) :
  (py_truthy (dict_get settings "pyramid_openapi3" VNone) = false ->
   forall routes,
     validate_routes E {| app_settings := settings; app_routes := routes |}
     = ([(WARNING, LogText
           "pyramid_openapi3 settings not found. Did you forget to call config.pyramid_openapi3_spec?")],
        Return tt))
  /\ (py_truthy (dict_get settings "pyramid_openapi3.enable_endpoint_validation"
                          (VBool true)) = false ->
      (forall routes,
          snd (validate_routes E {| app_settings := settings; app_routes := routes |})
          = Return tt)
      /\ (py_truthy (dict_get settings "pyramid_openapi3" VNone) = true ->
          forall routes,
            validate_routes E {| app_settings := settings; app_routes := routes |}
            = ([(INFO, LogText "Endpoint validation is disabled")], Return tt)))
  /\ (forall bag,
         settings !! "pyramid_openapi3" = Some (VBag bag) ->
         py_truthy (dict_get settings "pyramid_openapi3.enable_endpoint_validation"
                             (VBool true)) = true ->
         forall routes,
           snd (validate_routes E {| app_settings := settings; app_routes := routes |})
           = Return tt
           <-> missing_paths (map fst (paths (spec bag)))
                 (stripped_routes (server_prefixes E (spec bag)) routes) = []).
Proof.
  split; [|split].
  - intros Hbag routes. unfold validate_routes. cbn [app_settings]. now rewrite Hbag.
  - intros Hflag. split.
    + intros routes. unfold validate_routes. cbn [app_settings]. rewrite Hflag.
      now destruct (py_truthy (dict_get settings "pyramid_openapi3" VNone)).
    + intros Hbag routes. unfold validate_routes. cbn [app_settings].
      now rewrite Hbag, Hflag.
  - intros bag Hbag Hflag routes.
    rewrite (validate_routes_checks {| app_settings := settings; app_routes := routes |} bag)
      by assumption.
    cbn [snd app_routes]. destruct (missing_paths _ _); split; congruence.
Qed.

(** C3, as the code has it.  On an application whose spec is registered and
    whose endpoint validation is not switched off: when every path of the
    spec is among the prefix-stripped route paths the checker returns
    without an error; when some path is not, it raises one
    [MissingEndpointsError] that carries all the missing paths, a path being
    in the list exactly when it is a spec path with no route. *)
Theorem coverage_checker_reports_all (app : Router) (bag : Bag) :
  app_settings app !! "pyramid_openapi3" = Some (VBag bag) ->
  py_truthy (dict_get (app_settings app)
               "pyramid_openapi3.enable_endpoint_validation" (VBool true)) = true ->
  let spec_paths := map fst (paths (spec bag)) in
  let routes := stripped_routes (server_prefixes E (spec bag)) (app_routes app) in
  ((forall p, In p spec_paths -> In p routes) ->
   validate_routes E app = ([], Return tt))
  /\ ((exists p, In p spec_paths /\ ~ In p routes) ->
      validate_routes E app
      = ([], Raise (MissingEndpointsError (missing_paths spec_paths routes)))
      /\ forall p, In p (missing_paths spec_paths routes) <-> In p spec_paths /\ ~ In p routes).
Proof.
  intros Hbag Hflag spec_paths routes.
  rewrite (validate_routes_checks app bag Hbag Hflag). fold spec_paths routes. split.
  - intros Hall. apply missing_paths_nil in Hall. now rewrite Hall.
  - intros (p & Hp & Hnot). split; [|intros q; apply missing_paths_In].
    destruct (missing_paths spec_paths routes) as [|q l] eqn:Hm; [|reflexivity].
    exfalso. apply Hnot. now apply (proj1 (missing_paths_nil spec_paths routes) Hm).
Qed.

End CoverageFacts.

Lemma coverage_checker_skips_witness :
  snd (validate_routes Demo.externals
         {| app_settings := app_settings Demo.disabled_app; app_routes := [] |})
  = Return tt.
Proof.
  destruct (coverage_checker_skips Demo.externals (app_settings Demo.disabled_app))
    as (_ & Hdisabled & _).
  destruct Hdisabled as [Hskip _]; [vm_compute; reflexivity|].
  apply Hskip.
Defined.

(** C3, as the claim has it, fails: with the spec registered, its path
    "/hello" without a route, and endpoint validation switched off in the
    settings, the checker returns and raises nothing. *)
Lemma coverage_checker_disabled_counterexample :
  app_settings Demo.disabled_app !! "pyramid_openapi3" = Some (VBag Demo.hello_bag)
  /\ In "/hello" (map fst (paths (spec Demo.hello_bag)))
  /\ ~ In "/hello" (stripped_routes (server_prefixes Demo.externals (spec Demo.hello_bag))
                      (app_routes Demo.disabled_app))
  /\ validate_routes Demo.externals Demo.disabled_app
     = ([(INFO, LogText "Endpoint validation is disabled")], Return tt).
Proof.
  split; [vm_compute; reflexivity|].
  split; [now left|].
  split; [|vm_compute; reflexivity].
  rewrite <- mem_In. vm_compute. discriminate.
Qed.

Lemma coverage_checker_reports_all_witness :
  validate_routes Demo.externals (Demo.make_app Demo.with_spec)
  = ([], Raise (MissingEndpointsError ["/hello"])).
Proof.
  pose proof (coverage_checker_reports_all Demo.externals (Demo.make_app Demo.with_spec)
                Demo.hello_bag) as W.
  cbv zeta in W.
  destruct W as [_ Hmissing]; [vm_compute; reflexivity | reflexivity |].
  destruct Hmissing as [Hraise _].
  - exists "/hello". split; [now left|].
    rewrite <- mem_In. vm_compute. discriminate.
  - rewrite Hraise. vm_compute. reflexivity.
Defined.

(** ** The minimal-response checker *)

(** C4.  The checker checks nothing: for every application it returns
    without an error.  So it does on the application whose spec declares
    for GET /hello, an operation with a parameter, the responses 200, 400
    and 500 only, where the check its docstring describes reports the
    missing 404. *)
Theorem validate_minimal_responses_checks_nothing :
  (forall app : Router, validate_minimal_responses app = Return tt)
  /\ app_settings (Demo.make_app Demo.with_spec) !! "pyramid_openapi3"
     = Some (VBag Demo.hello_bag)
  /\ Described.report [200; 400; 500] [404] ∅ (spec Demo.hello_bag)
     = [("/hello", "get", [404])]
  /\ validate_minimal_responses (Demo.make_app Demo.with_spec) = Return tt.
Proof.
  split; [reflexivity|].
  split; [vm_compute; reflexivity|].
  split; reflexivity.
Qed.

(** * Further properties of the code *)

(** ** Prefix removal and route coverage *)

Module PyStrLength.
Import PyStr.

Lemma append_length (a b : string) :
  String.length (a +:+ b) = (String.length a + String.length b)%nat.
Proof.
  induction a as [|c a IH]; [reflexivity|].
  rewrite PyStrFacts.append_cons. simpl. now rewrite IH.
Qed.

Lemma drop_app (p s : string) : drop (String.length p) (p +:+ s) = s.
Proof.
  induction p as [|c p IH]; [reflexivity|].
  rewrite PyStrFacts.append_cons. exact IH.
Qed.

(** The scan keeps or drops characters and never adds one. *)
Lemma remove_scan_length (old : string) (k : nat) (s : string) :
  (String.length (remove_scan old k s) <= String.length s)%nat.
Proof.
  revert k. induction s as [|c s IH]; intros k; [simpl; lia|].
  destruct k as [|k]; cbn [remove_scan].
  - destruct (startswith old (String c s)).
    + specialize (IH (Nat.pred (String.length old))). simpl. lia.
    + specialize (IH O). simpl. lia.
  - specialize (IH k). simpl. lia.
Qed.

Lemma replace_length (old s : string) :
  (String.length (replace_with_empty old s) <= String.length s)%nat.
Proof.
  destruct old; [simpl; lia|]. apply remove_scan_length.
Qed.

(** Where the string occurs, the replacement is strictly shorter. *)
Lemma replace_shortens (old s : string) (i : nat) :
  old <> "" -> find old s = Some i ->
  (String.length (replace_with_empty old s) < String.length s)%nat.
Proof.
  intros Hne Hfind.
  pose proof (PyStrFacts.find_split old s i Hfind) as Hsplit.
  apply (f_equal String.length) in Hsplit. rewrite !append_length in Hsplit.
  rewrite (PyStrFacts.replace_at_find old s i Hne Hfind), append_length.
  pose proof (replace_length old (drop (i + String.length old) s)).
  destruct old; [congruence|]. simpl in *. lia.
Qed.

Lemma endswith_app (stem suffix : string) : endswith suffix (stem +:+ suffix) = true.
Proof.
  unfold endswith. rewrite append_length.
  replace (String.length stem + String.length suffix - String.length suffix)%nat
    with (String.length stem) by lia.
  rewrite drop_app, String.eqb_refl, andb_true_r.
  apply Nat.leb_le. lia.
Qed.

End PyStrLength.

Lemma fold_replace_length (prefixes : list string) (s : string) :
  (String.length
     (fold_left (fun path prefix => PyStr.replace_with_empty prefix path) prefixes s)
   <= String.length s)%nat.
Proof.
  revert s. induction prefixes as [|p l IH]; intros s; simpl; [lia|].
  etransitivity; [apply IH|apply PyStrLength.replace_length].
Qed.

(** A route registered under a server prefix strips to the path behind the
    prefix, when the prefix does not occur again in that path. *)
Lemma remove_prefixes_prefixed (prefix path : string) :
  PyStr.startswith "/" prefix = true ->
  PyStr.find prefix path = None ->
  remove_prefixes [prefix] (prefix +:+ path) = path.
Proof.
  intros Hslash Hnone. unfold remove_prefixes, leading_slash.
  assert (Hne : prefix <> "") by (intros ->; discriminate).
  assert (Hlead : PyStr.startswith "/" (prefix +:+ path) = true).
  { destruct prefix as [|c prefix]; [congruence|].
    rewrite PyStrFacts.append_cons. cbn [PyStr.startswith] in *. exact Hslash. }
  rewrite Hlead. cbn [negb fold_left].
  rewrite (PyStrFacts.replace_at_occurrence prefix (prefix +:+ path) Hne
             (PyStrFacts.startswith_app prefix path)).
  rewrite PyStrLength.drop_app. now apply PyStrFacts.replace_no_occurrence.
Qed.

Section CoverageMore.

Context (E : Externals).

(** X11.  With one server prefix that starts with "/", routes registered
    under the prefix cover the spec: when every spec path is free of the
    prefix and has a route whose pattern is the prefix followed by the path,
    the checker returns without an error. *)
Theorem prefixed_routes_cover (app : Router) (bag : Bag) (prefix : string) :
  app_settings app !! "pyramid_openapi3" = Some (VBag bag) ->
  py_truthy (dict_get (app_settings app)
               "pyramid_openapi3.enable_endpoint_validation" (VBool true)) = true ->
  server_prefixes E (spec bag) = [prefix] ->
  PyStr.startswith "/" prefix = true ->
  (forall path, In path (map fst (paths (spec bag))) ->
     PyStr.find prefix path = None
     /\ exists item, In item (app_routes app) /\ route_path (snd item) = prefix +:+ path) ->
  validate_routes E app = ([], Return tt).
Proof.
  intros Hbag Hflag Hprefixes Hslash Hroutes.
  rewrite (validate_routes_checks E app bag Hbag Hflag), Hprefixes.
  assert (Hnil : missing_paths (map fst (paths (spec bag)))
                   (stripped_routes [prefix] (app_routes app)) = []).
  { apply missing_paths_nil. intros path Hpath.
    destruct (Hroutes path Hpath) as (Hfree & item & Hitem & Hpattern).
    unfold stripped_routes. apply in_map_iff. exists item. split; [|exact Hitem].
    rewrite Hpattern. now apply remove_prefixes_prefixed. }
  now rewrite Hnil.
Qed.

(** X12.  A server URL without a path contributes the empty prefix, and the
    empty prefix changes nothing: removing the prefixes gives the same
    result as removing the non-empty ones only. *)
Theorem empty_prefix_is_harmless :
  (forall sp server,
      In server (servers sp) -> urlparse_path E (url server) = "" ->
      In "" (server_prefixes E sp))
  /\ (forall prefixes path,
         remove_prefixes (List.filter (fun p => negb (String.eqb p "")) prefixes) path
         = remove_prefixes prefixes path).
Proof.
  split.
  - intros sp server Hin Hpath. rewrite server_prefixes_filter.
    apply filter_In. split; [|reflexivity].
    apply in_map_iff. exists server. now split.
  - intros prefixes path. unfold remove_prefixes.
    generalize (leading_slash path) as s.
    induction prefixes as [|p l IH]; intros s; [reflexivity|].
    simpl. destruct (String.eqb p "") eqn:Hp; simpl.
    + apply String.eqb_eq in Hp. subst p. apply IH.
    + apply IH.
Qed.

End CoverageMore.

(** X13.  Prefix removal never makes a path longer than its slash-led form,
    and where the first prefix occurs anywhere in that form, also inside it,
    the result is strictly shorter: such a route pattern never strips to
    itself, so a spec path that holds the prefix is not matched by the route
    registered with the very same pattern. *)
Theorem remove_prefixes_shortens (prefix : string) (rest : list string) (path : string) :
  (forall prefixes,
      (String.length (remove_prefixes prefixes path)
       <= String.length (leading_slash path))%nat)
  /\ (forall i,
         prefix <> "" -> PyStr.find prefix (leading_slash path) = Some i ->
         (String.length (remove_prefixes (prefix :: rest) path)
          < String.length (leading_slash path))%nat
         /\ remove_prefixes (prefix :: rest) path <> leading_slash path).
Proof.
  split.
  - intros prefixes. apply fold_replace_length.
  - intros i Hne Hfind.
    assert (Hlt : (String.length (remove_prefixes (prefix :: rest) path)
                   < String.length (leading_slash path))%nat).
    { unfold remove_prefixes. cbn [fold_left].
      eapply Nat.le_lt_trans; [apply fold_replace_length|].
      now apply (PyStrLength.replace_shortens prefix _ i). }
    split; [exact Hlt|]. intros Heq. rewrite Heq in Hlt. lia.
Qed.

Lemma prefixed_routes_cover_witness :
  validate_routes Demo.externals Demo.prefixed_app = ([], Return tt).
Proof.
  apply (prefixed_routes_cover Demo.externals Demo.prefixed_app Demo.hello_bag "/api/v1").
  - vm_compute. reflexivity.
  - reflexivity.
  - reflexivity.
  - reflexivity.
  - intros path [<-|[]]. split; [reflexivity|].
    eexists. split; [left; reflexivity|reflexivity].
Defined.

Lemma empty_prefix_is_harmless_witness :
  In "" (server_prefixes Demo.externals {| servers := [{| url := "" |}]; paths := [] |}).
Proof.
  apply (proj1 (empty_prefix_is_harmless Demo.externals)
           {| servers := [{| url := "" |}]; paths := [] |} {| url := "" |}).
  - left. reflexivity.
  - reflexivity.
Defined.

Lemma remove_prefixes_shortens_witness :
  remove_prefixes ["/api"] "/v1/api/users" <> leading_slash "/v1/api/users".
Proof.
  apply (proj2 (remove_prefixes_shortens "/api" [] "/v1/api/users") 3%nat).
  - discriminate.
  - reflexivity.
Defined.

Section CoverageRoutes.

Context (E : Externals).

Lemma stripped_routes_app (prefixes : list string) (routes more : list (string * Route)) :
  stripped_routes prefixes (routes ++ more)
  = (stripped_routes prefixes routes ++ stripped_routes prefixes more)%list.
Proof. unfold stripped_routes. apply map_app. Qed.

(** X14.  The check is one-sided: a route without a spec path is no error.
    When the checker accepts an application it accepts it with any routes
    added, before or after the ones it has; and the paths reported missing
    after routes are added are among those reported before. *)
Theorem extra_routes_are_allowed (settings : gmap string PyVal) (bag : Bag)
  (routes before after : list (string * Route)) :
  settings !! "pyramid_openapi3" = Some (VBag bag) ->
  py_truthy (dict_get settings "pyramid_openapi3.enable_endpoint_validation"
                      (VBool true)) = true ->
  let grown := (before ++ routes ++ after)%list in
  (validate_routes E {| app_settings := settings; app_routes := routes |} = ([], Return tt) ->
   validate_routes E {| app_settings := settings; app_routes := grown |} = ([], Return tt))
  /\ (forall missing,
         validate_routes E {| app_settings := settings; app_routes := grown |}
         = ([], Raise (MissingEndpointsError missing)) ->
         exists missing0,
           validate_routes E {| app_settings := settings; app_routes := routes |}
           = ([], Raise (MissingEndpointsError missing0))
           /\ forall p, In p missing -> In p missing0).
Proof.
  intros Hbag Hflag grown.
  rewrite (validate_routes_checks E {| app_settings := settings; app_routes := routes |}
             bag Hbag Hflag).
  rewrite (validate_routes_checks E {| app_settings := settings; app_routes := grown |}
             bag Hbag Hflag).
  cbn [app_routes]. unfold grown. rewrite !stripped_routes_app.
  set (prefixes := server_prefixes E (spec bag)).
  set (spec_paths := map fst (paths (spec bag))).
  set (m0 := missing_paths spec_paths (stripped_routes prefixes routes)).
  set (m1 := missing_paths spec_paths
               (stripped_routes prefixes before
                ++ stripped_routes prefixes routes
                ++ stripped_routes prefixes after)).
  assert (Hsub : forall p, In p m1 -> In p m0).
  { intros p Hp. apply missing_paths_In in Hp as [Hspec Hnot].
    apply missing_paths_In. split; [exact Hspec|].
    intros Hin. apply Hnot. apply in_or_app. right. apply in_or_app. now left. }
  clearbody m0 m1. split.
  - intros Hok. destruct m0; [|discriminate].
    destruct m1 as [|p l]; [reflexivity|].
    exfalso. apply (Hsub p). now left.
  - intros missing Hraise. destruct m1 as [|p l]; [discriminate|].
    injection Hraise as <-.
    destruct m0 as [|q l0].
    + exfalso. apply (Hsub p). now left.
    + eexists. split; [reflexivity|]. exact Hsub.
Qed.

(** X10.  The endpoint-validation setting is tested for its Python truth
    value, not parsed: any non-empty string under the key, the way an ini
    file gives "false", "no" or "0", leaves the check switched on, and the
    checker decides by the missing paths. *)
Theorem string_flag_keeps_check_on (app : Router) (bag : Bag) (value : string) :
  app_settings app !! "pyramid_openapi3" = Some (VBag bag) ->
  app_settings app !! "pyramid_openapi3.enable_endpoint_validation" = Some (VStr value) ->
  value <> "" ->
  let missing :=
    missing_paths (map fst (paths (spec bag)))
      (stripped_routes (server_prefixes E (spec bag)) (app_routes app)) in
  (missing = [] -> validate_routes E app = ([], Return tt))
  /\ (missing <> [] ->
      validate_routes E app = ([], Raise (MissingEndpointsError missing))).
Proof.
  intros Hbag Hvalue Hne missing.
  assert (Hflag : py_truthy (dict_get (app_settings app)
                     "pyramid_openapi3.enable_endpoint_validation" (VBool true)) = true).
  { unfold dict_get. rewrite Hvalue. cbn [default from_option id py_truthy].
    apply negb_true_iff. now apply String.eqb_neq. }
  rewrite (validate_routes_checks E app bag Hbag Hflag). fold missing.
  split; intros Hm; destruct missing; congruence.
Qed.

End CoverageRoutes.

Lemma extra_routes_are_allowed_witness :
  validate_routes Demo.externals
    {| app_settings := cfg_settings Demo.with_spec;
       app_routes := ([] ++ app_routes Demo.prefixed_app ++ cfg_routes Demo.with_spec)%list |}
  = ([], Return tt).
Proof.
  apply (proj1 (extra_routes_are_allowed Demo.externals (cfg_settings Demo.with_spec)
                  Demo.hello_bag (app_routes Demo.prefixed_app) []
                  (cfg_routes Demo.with_spec)
                  ltac:(vm_compute; reflexivity) eq_refl)).
  vm_compute. reflexivity.
Defined.

Lemma string_flag_keeps_check_on_witness :
  validate_routes Demo.externals Demo.ini_disabled_app
  = ([], Raise (MissingEndpointsError ["/hello"])).
Proof.
  pose proof (string_flag_keeps_check_on Demo.externals Demo.ini_disabled_app
                Demo.hello_bag "false") as W.
  cbv zeta in W.
  destruct W as [_ Hraise];
    [vm_compute; reflexivity | vm_compute; reflexivity | discriminate |].
  rewrite Hraise; [vm_compute; reflexivity | vm_compute; discriminate].
Defined.

(** ** Inclusion of the add-on and the formatter registry *)

Lemma includeme_run (c : Configurator) :
  fst (includeme c) = Return tt
  /\ cfg_routes (snd (includeme c)) = cfg_routes c
  /\ cfg_views (snd (includeme c)) = cfg_views c
  /\ cfg_static_views (snd (includeme c)) = cfg_static_views c
  /\ cfg_settings (snd (includeme c))
     = if py_truthy (dict_get (cfg_settings c) "pyramid_openapi3_extract_errors" VNone)
       then cfg_settings c
       else <["pyramid_openapi3_extract_errors" := VCallable "extract_errors"]>
              (cfg_settings c).
Proof.
  destruct c as [settings routes views statics hooks].
  cbv [includeme bind add_hook modify get ret cfg_with_settings negb
       cfg_settings cfg_routes cfg_views cfg_static_views cfg_hooks fst snd].
  destruct (py_truthy (dict_get settings "pyramid_openapi3_extract_errors" VNone));
    cbv [cfg_settings cfg_routes cfg_views cfg_static_views cfg_hooks fst snd];
    repeat split.
Qed.

(** X1.  Including the add-on always succeeds and leaves the routes and
    views alone.  Afterwards the settings hold a true value under
    "pyramid_openapi3_extract_errors": a true value the application had put
    there is kept, with all settings unchanged; otherwise the default
    function is stored and no other key changes.  Including the add-on a
    second time does not change the settings again. *)
Theorem includeme_extract_errors (c : Configurator) :
  let c' := snd (includeme c) in
  fst (includeme c) = Return tt
  /\ cfg_routes c' = cfg_routes c /\ cfg_views c' = cfg_views c
  /\ py_truthy (dict_get (cfg_settings c') "pyramid_openapi3_extract_errors" VNone) = true
  /\ (py_truthy (dict_get (cfg_settings c) "pyramid_openapi3_extract_errors" VNone) = true ->
      cfg_settings c' = cfg_settings c)
  /\ (py_truthy (dict_get (cfg_settings c) "pyramid_openapi3_extract_errors" VNone) = false ->
      cfg_settings c' !! "pyramid_openapi3_extract_errors" = Some (VCallable "extract_errors"))
  /\ (forall key, key <> "pyramid_openapi3_extract_errors" ->
        cfg_settings c' !! key = cfg_settings c !! key)
  /\ cfg_settings (snd (includeme c')) = cfg_settings c'.
Proof.
  intros c'. destruct (includeme_run c) as (Hret & Hroutes & Hviews & _ & Hsettings).
  fold c' in Hroutes, Hviews, Hsettings.
  assert (Htrue : py_truthy (dict_get (cfg_settings c')
                     "pyramid_openapi3_extract_errors" VNone) = true).
  { rewrite Hsettings.
    destruct (py_truthy (dict_get (cfg_settings c) "pyramid_openapi3_extract_errors" VNone))
      eqn:Hc; [exact Hc|].
    unfold dict_get. now rewrite lookup_insert_eq. }
  repeat split; try assumption.
  - intros Hc. now rewrite Hsettings, Hc.
  - intros Hc. rewrite Hsettings, Hc. apply lookup_insert_eq.
  - intros key Hkey. rewrite Hsettings.
    destruct (py_truthy _); [reflexivity|]. now apply lookup_insert_ne.
  - destruct (includeme_run c') as (_ & _ & _ & _ & Hagain).
    now rewrite Hagain, Htrue.
Qed.

Lemma includeme_extract_errors_witness :
  cfg_settings Demo.included !! "pyramid_openapi3_extract_errors"
  = Some (VCallable "extract_errors").
Proof.
  apply (proj1 (proj2 (proj2 (proj2 (proj2 (proj2
           (includeme_extract_errors Demo.empty_config))))))).
  reflexivity.
Defined.

Section FormatterFacts.

Context (E : Externals).

(** X2.  Registering a formatter succeeds unless the settings hold, under
    "pyramid_openapi3_formatters", something that is not a registry.  After
    it the registry maps the name to the function, whether the name was
    taken or the registry existed or not, and every other name is mapped as
    before.  A failed call changes nothing. *)
Theorem add_formatter_registers (c : Configurator) (name : string) (func : Formatter) :
  let c' := snd (add_formatter name func c) in
  ((cfg_settings c !! "pyramid_openapi3_formatters" = None
    \/ exists reg, cfg_settings c !! "pyramid_openapi3_formatters" = Some (VFormatters reg)) ->
   fst (add_formatter name func c) = Return tt)
  /\ (fst (add_formatter name func c) = Return tt ->
      exists reg',
        get_custom_formatters c' = Some reg'
        /\ reg' !! name = Some func
        /\ (forall other, other <> name ->
              reg' !! other = default ∅ (get_custom_formatters c) !! other)
        /\ (forall key, key <> "pyramid_openapi3_formatters" ->
              cfg_settings c' !! key = cfg_settings c !! key))
  /\ (forall e, fst (add_formatter name func c) = Raise e -> c' = c).
Proof.
  intros c'. unfold c', add_formatter, bind, get, modify, raise, dict_get,
    get_custom_formatters.
  destruct (cfg_settings c !! "pyramid_openapi3_formatters") as [v|] eqn:Hreg.
  - destruct v; cbn; (split; [|split]);
      try (intros [Hnone | [reg Hsome]]; congruence);
      try discriminate; try (intros e _; reflexivity); try reflexivity.
    + intros _. eexists. rewrite lookup_insert_eq. split; [reflexivity|].
      split; [apply lookup_insert_eq|]. split.
      * intros other Hother. now apply lookup_insert_ne.
      * intros key Hkey. now apply lookup_insert_ne.
  - cbn. split; [reflexivity|]. split; [|discriminate].
    intros _. eexists. rewrite lookup_insert_eq. split; [reflexivity|].
    split; [apply lookup_insert_eq|]. split.
    + intros other Hother. now apply lookup_insert_ne.
    + intros key Hkey. now apply lookup_insert_ne.
Qed.

End FormatterFacts.

Lemma add_formatter_registers_witness :
  exists reg,
    get_custom_formatters (snd (add_formatter "upper" Demo.upper_formatter Demo.included))
    = Some reg
    /\ reg !! "upper" = Some Demo.upper_formatter.
Proof.
  destruct (proj1 (proj2 (add_formatter_registers Demo.included "upper"
                            Demo.upper_formatter)) eq_refl)
    as (reg & Hreg & Hname & _).
  exists reg. split; [exact Hreg|exact Hname].
Defined.

(** ** The spec directives, step by step *)

Lemma add_formatter_run (c : Configurator) (name : string) (func : Formatter) :
  fst (add_formatter name func c) = Return tt ->
  exists reg,
    get_custom_formatters (snd (add_formatter name func c)) = Some reg
    /\ reg !! name = Some func
    /\ cfg_settings (snd (add_formatter name func c)) !! "pyramid_openapi3"
       = cfg_settings c !! "pyramid_openapi3".
Proof.
  unfold add_formatter, bind, get, modify, raise, dict_get, get_custom_formatters.
  destruct (cfg_settings c !! "pyramid_openapi3_formatters") as [v|] eqn:Hreg.
  - destruct v; cbn; try discriminate.
    intros _. eexists. rewrite lookup_insert_eq. split; [reflexivity|].
    split; [apply lookup_insert_eq|]. now apply lookup_insert_ne.
  - cbn. intros _. eexists. rewrite lookup_insert_eq. split; [reflexivity|].
    split; [apply lookup_insert_eq|]. now apply lookup_insert_ne.
Qed.

Section SpecDirectiveSteps.

Context (E : Externals).

(** The configurator once the file directive has added its route and view. *)
Lemma add_spec_view_run (c : Configurator) (file route name permission : string) :
  cfg_settings c !! "pyramid_openapi3" = None ->
  let registered :=
    {| cfg_settings := cfg_settings c;
       cfg_routes :=
         cfg_routes c ++ [(name, {| route_name := name; route_path := route |})];
       cfg_views :=
         cfg_views c ++
           [{| view_route_name := name;
               view_permission := permission;
               view_callable := SpecView file |}];
       cfg_static_views := cfg_static_views c;
       cfg_hooks := cfg_hooks c |} in
  add_spec_view E file route name permission c
  = match load_spec E file None with
    | Raise e => (Raise e, c)
    | Return sp =>
        match RequestValidator E sp (get_custom_formatters c) with
        | Raise e => (Raise e, registered)
        | Return rv =>
            match ResponseValidator E sp (get_custom_formatters c) with
            | Raise e => (Raise e, registered)
            | Return pv =>
                (Return tt,
                 cfg_with_settings
                   (fun s =>
                      <["pyramid_openapi3" := VBag
                          {| filepath := file;
                             spec_route_name := name;
                             spec := sp;
                             request_validator := rv;
                             response_validator := pv |}]> s)
                   registered)
            end
        end
    end.
Proof.
  intros Hbag registered.
  unfold add_spec_view, action, store_bag, bind, get, lift, raise, add_route, add_view,
    modify, spec_configured.
  rewrite Hbag. destruct (load_spec E file None) as [sp|e]; [|reflexivity].
  cbv beta iota.
  change (get_custom_formatters _) with (get_custom_formatters c).
  destruct (RequestValidator E sp (get_custom_formatters c)) as [rv|e]; [|reflexivity].
  destruct (ResponseValidator E sp (get_custom_formatters c)) as [pv|e]; reflexivity.
Qed.

(** The same for the directory directive. *)
Lemma add_spec_view_directory_run (c : Configurator) (file route name : string) :
  cfg_settings c !! "pyramid_openapi3" = None ->
  let path := path_resolve E file in
  let registered :=
    {| cfg_settings := cfg_settings c;
       cfg_routes :=
         cfg_routes c ++
           [(name, {| route_name := name;
                      route_path := route +:+ ("/" +:+ path_name E path) |})];
       cfg_views := cfg_views c;
       cfg_static_views := cfg_static_views c ++ [(route, path_parent E path)];
       cfg_hooks := cfg_hooks c |} in
  add_spec_view_directory E file route name c
  = if PyStr.endswith_any [".yaml"; ".yml"; ".json"] route then
      (Raise (ConfigurationError
                "Having route be a filename is not allowed when using a spec directory"), c)
    else
      match load_spec E path (Some (path_as_uri E path)) with
      | Raise e => (Raise e, c)
      | Return sp =>
          match RequestValidator E sp (get_custom_formatters c) with
          | Raise e => (Raise e, registered)
          | Return rv =>
              match ResponseValidator E sp (get_custom_formatters c) with
              | Raise e => (Raise e, registered)
              | Return pv =>
                  (Return tt,
                   cfg_with_settings
                     (fun s =>
                        <["pyramid_openapi3" := VBag
                            {| filepath := file;
                               spec_route_name := name;
                               spec := sp;
                               request_validator := rv;
                               response_validator := pv |}]> s)
                     registered)
              end
          end
      end.
Proof.
  intros Hbag path registered.
  unfold add_spec_view_directory, action, store_bag, bind, get, lift, raise, add_route,
    add_static_view, modify, spec_configured.
  rewrite Hbag.
  destruct (PyStr.endswith_any [".yaml"; ".yml"; ".json"] route); [reflexivity|].
  cbv zeta. fold path.
  destruct (load_spec E path (Some (path_as_uri E path))) as [sp|e]; [|reflexivity].
  cbv beta iota.
  change (get_custom_formatters _) with (get_custom_formatters c).
  destruct (RequestValidator E sp (get_custom_formatters c)) as [rv|e]; [|reflexivity].
  destruct (ResponseValidator E sp (get_custom_formatters c)) as [pv|e]; reflexivity.
Qed.

(** A file directive that returns has stored a bag with its route name. *)
Lemma add_spec_view_returns (c : Configurator) (file route name permission : string) :
  cfg_settings c !! "pyramid_openapi3" = None ->
  fst (add_spec_view E file route name permission c) = Return tt ->
  exists sp rv pv,
    cfg_settings (snd (add_spec_view E file route name permission c))
      !! "pyramid_openapi3"
    = Some (VBag {| filepath := file;
                    spec_route_name := name;
                    spec := sp;
                    request_validator := rv;
                    response_validator := pv |})
    /\ cfg_views (snd (add_spec_view E file route name permission c))
       = (cfg_views c ++
          [{| view_route_name := name;
              view_permission := permission;
              view_callable := SpecView file |}])%list.
Proof.
  intros Hbag. rewrite (add_spec_view_run c file route name permission Hbag). cbv zeta.
  destruct (load_spec E file None) as [sp|e]; [|discriminate].
  destruct (RequestValidator E sp (get_custom_formatters c)) as [rv|e]; [|discriminate].
  destruct (ResponseValidator E sp (get_custom_formatters c)) as [pv|e]; [|discriminate].
  intros _. exists sp, rv, pv. cbn [snd cfg_with_settings cfg_settings cfg_views].
  split; [apply lookup_insert_eq|reflexivity].
Qed.

(** X4.  The outcomes of the file directive on a configurator without a
    bag.  When the spec file cannot be read, is not valid or cannot be
    parsed, the exception propagates and the configurator is unchanged.
    When the spec loads and the constructor of the request validator or of
    the response validator raises, the exception propagates with the route
    and the view already registered and no bag stored, the settings being
    unchanged.  When both constructors return, one route with the given
    name and pattern and one view serving the file under the given
    permission have been added, and the bag holds the file path, the route
    name, the loaded spec and the two validators the constructors returned;
    no other setting changes. *)
Theorem add_spec_view_outcomes (c : Configurator) (file route name permission : string) :
  cfg_settings c !! "pyramid_openapi3" = None ->
  let c' := snd (add_spec_view E file route name permission c) in
  let routes :=
    (cfg_routes c ++ [(name, {| route_name := name; route_path := route |})])%list in
  let views :=
    (cfg_views c ++
     [{| view_route_name := name;
         view_permission := permission;
         view_callable := SpecView file |}])%list in
  (forall e, load_spec E file None = Raise e ->
     add_spec_view E file route name permission c = (Raise e, c))
  /\ (forall sp, load_spec E file None = Return sp ->
        (forall e,
            (RequestValidator E sp (get_custom_formatters c) = Raise e
             \/ exists rv,
                 RequestValidator E sp (get_custom_formatters c) = Return rv
                 /\ ResponseValidator E sp (get_custom_formatters c) = Raise e) ->
            fst (add_spec_view E file route name permission c) = Raise e
            /\ cfg_routes c' = routes /\ cfg_views c' = views
            /\ cfg_settings c' = cfg_settings c)
        /\ (forall rv pv,
              RequestValidator E sp (get_custom_formatters c) = Return rv ->
              ResponseValidator E sp (get_custom_formatters c) = Return pv ->
              fst (add_spec_view E file route name permission c) = Return tt
              /\ cfg_routes c' = routes /\ cfg_views c' = views
              /\ cfg_settings c' !! "pyramid_openapi3"
                 = Some (VBag {| filepath := file;
                                 spec_route_name := name;
                                 spec := sp;
                                 request_validator := rv;
                                 response_validator := pv |})
              /\ (forall key, key <> "pyramid_openapi3" ->
                    cfg_settings c' !! key = cfg_settings c !! key))).
Proof.
  intros Hbag c' routes views. unfold c'.
  rewrite (add_spec_view_run c file route name permission Hbag). cbv zeta.
  split.
  - intros e ->. reflexivity.
  - intros sp ->. split.
    + intros e [-> | (rv & -> & ->)]; repeat split.
    + intros rv pv -> ->. cbn [fst snd cfg_with_settings cfg_settings cfg_routes cfg_views].
      repeat split.
      * apply lookup_insert_eq.
      * intros key Hkey. now apply lookup_insert_ne.
Qed.

(** X3.  Formatters registered before the spec are the ones the validators
    are built with: after a formatter is registered, the file directive
    hands both constructors a registry that maps the formatter's name to
    it.  When the constructors return, the bag holds what they returned for
    that registry; when the constructor of the request validator rejects
    the registry, the directive fails with its exception and stores no bag.
    On a configurator with no formatter registry the constructors are given
    [None]. *)
Theorem formatters_reach_validators (c : Configurator) (file route name permission : string)
  (sp : Spec) :
  cfg_settings c !! "pyramid_openapi3" = None ->
  load_spec E file None = Return sp ->
  (forall fname func,
      fst (add_formatter fname func c) = Return tt ->
      let c1 := snd (add_formatter fname func c) in
      exists reg,
        get_custom_formatters c1 = Some reg
        /\ reg !! fname = Some func
        /\ (forall rv pv,
              RequestValidator E sp (Some reg) = Return rv ->
              ResponseValidator E sp (Some reg) = Return pv ->
              cfg_settings (snd (add_spec_view E file route name permission c1))
                !! "pyramid_openapi3"
              = Some (VBag {| filepath := file;
                              spec_route_name := name;
                              spec := sp;
                              request_validator := rv;
                              response_validator := pv |}))
        /\ (forall e,
              RequestValidator E sp (Some reg) = Raise e ->
              fst (add_spec_view E file route name permission c1) = Raise e
              /\ cfg_settings (snd (add_spec_view E file route name permission c1))
                   !! "pyramid_openapi3" = None))
  /\ (cfg_settings c !! "pyramid_openapi3_formatters" = None ->
      forall rv pv,
        RequestValidator E sp None = Return rv ->
        ResponseValidator E sp None = Return pv ->
        cfg_settings (snd (add_spec_view E file route name permission c))
          !! "pyramid_openapi3"
        = Some (VBag {| filepath := file;
                        spec_route_name := name;
                        spec := sp;
                        request_validator := rv;
                        response_validator := pv |})).
Proof.
  intros Hbag Hload. split.
  - intros fname func Hok c1.
    destruct (add_formatter_run c fname func Hok) as (reg & Hreg & Hname & Hkeep).
    fold c1 in Hreg, Hkeep. rewrite Hbag in Hkeep.
    exists reg. split; [exact Hreg|]. split; [exact Hname|].
    rewrite (add_spec_view_run c1 file route name permission Hkeep), Hload, Hreg. cbv zeta.
    split.
    + intros rv pv -> ->. cbn [snd cfg_with_settings cfg_settings].
      apply lookup_insert_eq.
    + intros e ->. cbn [fst snd cfg_settings]. split; [reflexivity|exact Hkeep].
  - intros Hnone rv pv Hrv Hpv.
    assert (Hfmts : get_custom_formatters c = None)
      by (unfold get_custom_formatters; now rewrite Hnone).
    rewrite (add_spec_view_run c file route name permission Hbag), Hload, Hfmts, Hrv, Hpv.
    cbn [snd cfg_with_settings cfg_settings]. apply lookup_insert_eq.
Qed.

(** X5.  On a configurator without a bag the directory directive rejects a
    route that ends in ".yaml", ".yml" or ".json", whatever comes before the
    ending: it raises [ConfigurationError] before it resolves or reads any
    file, whatever the external functions do, and the configurator is
    unchanged. *)
Theorem directory_route_must_not_be_a_file (c : Configurator)
  (file stem ending name : string) :
  cfg_settings c !! "pyramid_openapi3" = None ->
  In ending [".yaml"; ".yml"; ".json"] ->
  add_spec_view_directory E file (stem +:+ ending) name c
  = (Raise (ConfigurationError
              "Having route be a filename is not allowed when using a spec directory"), c).
Proof.
  intros Hbag Hending.
  rewrite (add_spec_view_directory_run c file (stem +:+ ending) name Hbag). cbv zeta.
  assert (Hends : PyStr.endswith_any [".yaml"; ".yml"; ".json"] (stem +:+ ending) = true).
  { unfold PyStr.endswith_any. apply existsb_exists. exists ending.
    split; [exact Hending|apply PyStrLength.endswith_app]. }
  now rewrite Hends.
Qed.

(** X6.  The directory directive on a configurator without a bag, with a
    route that is no file name: the spec is loaded from the resolved path,
    with the URI of that path as its URL, and a failure to load propagates
    with the configurator unchanged; a constructor that raises propagates
    its exception and no bag is stored; when the directive returns, the
    static view of the parent directory was requested under the route, the
    route added under the given name has the pattern made of the route, "/"
    and the file name, and the bag holds the file path as it was given, not
    resolved, with the route name and the loaded spec. *)
Theorem add_spec_view_directory_outcomes (c : Configurator) (file route name : string) :
  cfg_settings c !! "pyramid_openapi3" = None ->
  PyStr.endswith_any [".yaml"; ".yml"; ".json"] route = false ->
  let path := path_resolve E file in
  let c' := snd (add_spec_view_directory E file route name c) in
  (forall e, load_spec E path (Some (path_as_uri E path)) = Raise e ->
     add_spec_view_directory E file route name c = (Raise e, c))
  /\ (forall e, fst (add_spec_view_directory E file route name c) = Raise e ->
        cfg_settings c' = cfg_settings c)
  /\ (fst (add_spec_view_directory E file route name c) = Return tt ->
      In (route, path_parent E path) (cfg_static_views c')
      /\ In (name, {| route_name := name;
                      route_path := route +:+ ("/" +:+ path_name E path) |})
            (cfg_routes c')
      /\ exists sp rv pv,
          load_spec E path (Some (path_as_uri E path)) = Return sp
          /\ cfg_settings c' !! "pyramid_openapi3"
             = Some (VBag {| filepath := file;
                             spec_route_name := name;
                             spec := sp;
                             request_validator := rv;
                             response_validator := pv |})).
Proof.
  intros Hbag Hroute path c'. unfold c'.
  rewrite (add_spec_view_directory_run c file route name Hbag), Hroute. cbv zeta.
  fold path.
  destruct (load_spec E path (Some (path_as_uri E path))) as [sp|e0].
  - destruct (RequestValidator E sp (get_custom_formatters c)) as [rv|e1];
      [destruct (ResponseValidator E sp (get_custom_formatters c)) as [pv|e2]|].
    + split; [discriminate|]. split; [discriminate|]. intros _.
      cbn [snd cfg_with_settings cfg_settings cfg_routes cfg_static_views].
      split; [apply in_or_app; right; now left|].
      split; [apply in_or_app; right; now left|].
      exists sp, rv, pv. split; [reflexivity|apply lookup_insert_eq].
    + split; [discriminate|]. split; [reflexivity|discriminate].
    + split; [discriminate|]. split; [reflexivity|discriminate].
  - split; [intros e He; injection He as <-; reflexivity|].
    split; [reflexivity|discriminate].
Qed.

(** X7.  The explorer may be registered before the spec.  On a configurator
    without a bag, after the explorer directive and then a file directive
    that returns, the explorer view is registered and, on a request to that
    application, it no longer raises: it reads the template and returns a
    200 page built from the template, the UI version and the URL of the
    route name given to the spec directive; a template that cannot be read
    and a route URL that cannot be built propagate their exception. *)
Theorem explorer_before_spec (c : Configurator)
  (route name template ui_version permission : string)
  (file spec_route spec_name spec_permission : string) (request : Request) :
  cfg_settings c !! "pyramid_openapi3" = None ->
  let c1 := snd (add_explorer_view route name template ui_version permission c) in
  let c2 := snd (add_spec_view E file spec_route spec_name spec_permission c1) in
  fst (add_spec_view E file spec_route spec_name spec_permission c1) = Return tt ->
  req_settings request = cfg_settings c2 ->
  In {| view_route_name := name;
        view_permission := permission;
        view_callable := ExplorerView template ui_version |} (cfg_views c2)
  /\ (forall e, read_text E (asset_abspath E template) = Raise e ->
        call_view E (ExplorerView template ui_version) request = Raise e)
  /\ (forall content,
        read_text E (asset_abspath E template) = Return content ->
        (forall e, route_url E request spec_name = Raise e ->
           call_view E (ExplorerView template ui_version) request = Raise e)
        /\ (forall spec_url, route_url E request spec_name = Return spec_url ->
              call_view E (ExplorerView template ui_version) request
              = Return {| status_code := 200;
                          text := safe_substitute E content ui_version spec_url;
                          json_body := None |})).
Proof.
  intros Hbag c1 c2 Hok Hrequest.
  destruct (add_spec_view_returns c1 file spec_route spec_name spec_permission Hbag Hok)
    as (sp & rv & pv & Hc2 & Hviews).
  fold c2 in Hc2, Hviews. split.
  - rewrite Hviews. apply in_or_app. left.
    unfold c1. cbn [add_explorer_view action bind add_route add_view modify snd cfg_views].
    apply in_or_app. right. now left.
  - cbn [call_view]. unfold explorer_view, dict_get. rewrite Hrequest, Hc2.
    cbn [default from_option id spec_route_name].
    split.
    + intros e ->. reflexivity.
    + intros content ->. split.
      * intros e ->. reflexivity.
      * intros spec_url ->. reflexivity.
Qed.

End SpecDirectiveSteps.

Lemma add_spec_view_outcomes_witness :
  fst (add_spec_view Demo.strict_externals "openapi.yaml" "/openapi.yaml"
         "pyramid_openapi3.spec" NO_PERMISSION_REQUIRED Demo.with_plain_formatter)
  = Raise (OtherException "AttributeError")
  /\ map fst (cfg_routes
               (snd (add_spec_view Demo.strict_externals "openapi.yaml" "/openapi.yaml"
                       "pyramid_openapi3.spec" NO_PERMISSION_REQUIRED
                       Demo.with_plain_formatter)))
     = ["pyramid_openapi3.spec"].
Proof.
  pose proof (add_spec_view_outcomes Demo.strict_externals Demo.with_plain_formatter
                "openapi.yaml" "/openapi.yaml" "pyramid_openapi3.spec"
                NO_PERMISSION_REQUIRED ltac:(vm_compute; reflexivity)) as W.
  cbv zeta in W.
  destruct W as [_ Hloaded].
  destruct (Hloaded Demo.hello_spec eq_refl) as [Hfail _].
  destruct (Hfail (OtherException "AttributeError")) as (Hraise & Hroutes & _).
  - left. vm_compute. reflexivity.
  - split; [exact Hraise|]. rewrite Hroutes. vm_compute. reflexivity.
Defined.

Lemma formatters_reach_validators_witness :
  fst (add_spec_view Demo.strict_externals "openapi.yaml" "/openapi.yaml"
         "pyramid_openapi3.spec" NO_PERMISSION_REQUIRED
         (snd (add_formatter "plain" Demo.upper_formatter Demo.included)))
  = Raise (OtherException "AttributeError").
Proof.
  destruct (proj1 (formatters_reach_validators Demo.strict_externals Demo.included
                     "openapi.yaml" "/openapi.yaml" "pyramid_openapi3.spec"
                     NO_PERMISSION_REQUIRED Demo.hello_spec
                     ltac:(vm_compute; reflexivity) eq_refl)
              "plain" Demo.upper_formatter ltac:(vm_compute; reflexivity))
    as (reg & Hreg & _ & _ & Hfail).
  apply (Hfail (OtherException "AttributeError")).
  injection Hreg as <-. vm_compute. reflexivity.
Defined.

Lemma directory_route_must_not_be_a_file_witness :
  add_spec_view_directory Demo.externals "spec/openapi.yaml" "/openapi.yaml"
    "pyramid_openapi3.spec" Demo.included
  = (Raise (ConfigurationError
              "Having route be a filename is not allowed when using a spec directory"),
     Demo.included).
Proof.
  apply (directory_route_must_not_be_a_file Demo.externals Demo.included
           "spec/openapi.yaml" "/openapi" ".yaml" "pyramid_openapi3.spec").
  - vm_compute. reflexivity.
  - left. reflexivity.
Defined.

Lemma add_spec_view_directory_outcomes_witness :
  In ("pyramid_openapi3.spec",
      {| route_name := "pyramid_openapi3.spec"; route_path := "/spec/openapi.yaml" |})
     (cfg_routes (snd (add_spec_view_directory Demo.externals "spec/openapi.yaml" "/spec"
                         "pyramid_openapi3.spec" Demo.included))).
Proof.
  pose proof (add_spec_view_directory_outcomes Demo.externals Demo.included
                "spec/openapi.yaml" "/spec" "pyramid_openapi3.spec"
                ltac:(vm_compute; reflexivity) ltac:(vm_compute; reflexivity)) as W.
  cbv zeta in W.
  destruct W as (_ & _ & Hok).
  destruct Hok as (_ & Hroute & _); [vm_compute; reflexivity|].
  exact Hroute.
Defined.

Lemma explorer_before_spec_witness :
  call_view Demo.externals (ExplorerView "static/index.html" "3.17.1")
    (Demo.request_to
       (snd (add_spec_view Demo.externals "openapi.yaml" "/openapi.yaml"
               "pyramid_openapi3.spec" NO_PERMISSION_REQUIRED Demo.with_explorer_only))
       "/docs/" "")
  = Return {| status_code := 200;
              text := "<html>${ui_version} ${spec_url}</html>";
              json_body := None |}.
Proof.
  pose proof (explorer_before_spec Demo.externals Demo.included
                "/docs/" "pyramid_openapi3.explorer" "static/index.html" "3.17.1"
                NO_PERMISSION_REQUIRED
                "openapi.yaml" "/openapi.yaml" "pyramid_openapi3.spec"
                NO_PERMISSION_REQUIRED
                (Demo.request_to
                   (snd (add_spec_view Demo.externals "openapi.yaml" "/openapi.yaml"
                           "pyramid_openapi3.spec" NO_PERMISSION_REQUIRED
                           Demo.with_explorer_only))
                   "/docs/" "")) as W.
  cbv zeta in W.
  destruct W as (_ & _ & Hpage);
    [vm_compute; reflexivity | vm_compute; reflexivity | reflexivity |].
  destruct (Hpage "<html>${ui_version} ${spec_url}</html>" eq_refl) as [_ Hok].
  apply (Hok "http://localhost/openapi.yaml"). reflexivity.
Defined.

(** ** The wrapper and the exception view together *)

Section WrapperMore.

Context (E : Externals) {Ctx : Type}.

(** X8.  On an application that never registered a spec, a request to a
    view derived with a true [openapi] option fails with [KeyError] on
    "pyramid_openapi3", whatever the validation flags are; the handler is
    not run, and the only trace on the request is the response flag the
    wrapper had already written to the environ. *)
Theorem wrapper_without_spec (view : View Ctx) (info : ViewDeriverInfo)
  (context : Ctx) (request : Request) :
  py_truthy (dict_get (options info) "openapi" VNone) = true ->
  req_settings request !! "pyramid_openapi3" = None ->
  openapi_view E view info context request
  = (Raise (KeyError "pyramid_openapi3"),
     with_environ
       (fun env =>
          <["pyramid_openapi3.validate_response" :=
              VBool (asbool (dict_get (req_settings request)
                               "pyramid_openapi3.enable_response_validation"
                               (VBool true)))]> env)
       request).
Proof.
  intros Hopt Hbag. rewrite (openapi_view_wraps E view info Hopt).
  unfold wrapper_view, bind, get, environ_set, modify, settings_bag.
  cbn -[asbool dict_get]. now rewrite Hbag.
Qed.

(** X9.  On an application with a registered spec there is one request
    state, the same for every handler, that the wrapper hands to the handler
    or raises its validation error from.  In it the bag in the registry
    settings is the one the wrapper found with the base URL of both
    validators set to the application URL of this request; the spec, the
    file path, the route name and the formatters of the bag, and every other
    setting, are as they were. *)
Theorem wrapper_refreshes_base_url (info : ViewDeriverInfo)
  (context : Ctx) (request : Request) (bag : Bag) :
  py_truthy (dict_get (options info) "openapi" VNone) = true ->
  req_settings request !! "pyramid_openapi3" = Some (VBag bag) ->
  exists received bag',
    (forall view : View Ctx,
        openapi_view E view info context request = view context received
        \/ exists errs,
            openapi_view E view info context request
            = (Raise (ValidationError (RequestValidationError errs)), received))
    /\ req_settings received !! "pyramid_openapi3" = Some (VBag bag')
    /\ base_url (request_validator bag') = Some (req_application_url request)
    /\ base_url (response_validator bag') = Some (req_application_url request)
    /\ spec bag' = spec bag /\ filepath bag' = filepath bag
    /\ spec_route_name bag' = spec_route_name bag
    /\ v_spec (request_validator bag') = v_spec (request_validator bag)
    /\ custom_formatters (request_validator bag') = custom_formatters (request_validator bag)
    /\ v_spec (response_validator bag') = v_spec (response_validator bag)
    /\ custom_formatters (response_validator bag')
       = custom_formatters (response_validator bag)
    /\ (forall key, key <> "pyramid_openapi3" ->
          req_settings received !! key = req_settings request !! key).
Proof.
  intros Hopt Hbag.
  assert (Hrun : forall view : View Ctx,
             openapi_view E view info context request
             = _) by
    (intros view; rewrite (openapi_view_wraps E view info Hopt);
     apply (wrapper_view_prepares E view context request bag Hbag)).
  cbv zeta in Hrun.
  destruct (asbool (dict_get (req_settings request)
                      "pyramid_openapi3.enable_request_validation" (VBool true))).
  - destruct (errors _) as [|e errs] eqn:Herrors in Hrun.
    + eexists. exists (refresh_base_url bag (req_application_url request)).
      split; [intros view; left; apply Hrun|].
      cbn -[asbool dict_get]. rewrite lookup_insert_eq. repeat split.
      intros key Hkey. now apply lookup_insert_ne.
    + eexists. exists (refresh_base_url bag (req_application_url request)).
      split; [intros view; right; eexists; apply Hrun|].
      cbn -[asbool dict_get]. rewrite lookup_insert_eq. repeat split.
      intros key Hkey. now apply lookup_insert_ne.
  - eexists. exists (refresh_base_url bag (req_application_url request)).
    split; [intros view; left; apply Hrun|].
    cbn -[asbool dict_get]. rewrite lookup_insert_eq. repeat split.
    intros key Hkey. now apply lookup_insert_ne.
Qed.

(** X16.  Wrapper and exception view together: on an application that
    included the add-on and registered a spec, with request validation
    enabled, a request whose validation finds errors ends in the wrapper's
    [RequestValidationError]; the settings the wrapper leaves still hold the
    extraction function, so the exception view, called with that exception
    on that request, logs one warning and returns a response whose status is
    401 when an error is an [InvalidSecurity] and 400 otherwise, and whose
    body is what the extraction function makes of exactly the errors the
    validator reported. *)
Theorem validation_failure_response (view : View Ctx) (info : ViewDeriverInfo)
  (context : Ctx) (request : Request) (bag : Bag) (extract_errors : string) :
  py_truthy (dict_get (options info) "openapi" VNone) = true ->
  req_settings request !! "pyramid_openapi3" = Some (VBag bag) ->
  req_settings request !! "pyramid_openapi3_extract_errors"
  = Some (VCallable extract_errors) ->
  asbool (dict_get (req_settings request)
            "pyramid_openapi3.enable_request_validation" (VBool true)) = true ->
  let validate_response :=
    asbool (dict_get (req_settings request)
              "pyramid_openapi3.enable_response_validation" (VBool true)) in
  let settings := refresh_base_url bag (req_application_url request) in
  let checked :=
    with_environ (fun env => <["pyramid_openapi3.validate_request" := VBool true]> env)
      (with_settings (fun s => <["pyramid_openapi3" := VBag settings]> s)
         (with_environ
            (fun env => <["pyramid_openapi3.validate_response" := VBool validate_response]> env)
            request)) in
  let validated :=
    validate E (request_validator settings) (create_openapi_request E checked) in
  let failed := with_openapi_validated validated checked in
  errors validated <> [] ->
  openapi_view E view info context request
  = (Raise (ValidationError (RequestValidationError (errors validated))), failed)
  /\ openapi_validation_error E (RequestValidationError (errors validated)) failed
     = ([(WARNING, LogException (RequestValidationError (errors validated)))],
        Return
          {| status_code :=
               if existsb is_InvalidSecurity (errors validated) then 401 else 400;
             text := "";
             json_body :=
               Some (call_extract_errors E extract_errors failed (errors validated)) |}).
Proof.
  intros Hopt Hbag Hextract Hflag validate_response settings checked validated failed
    Herrors.
  split.
  - rewrite (openapi_view_wraps E view info Hopt).
    rewrite (wrapper_view_prepares E view context request bag Hbag), Hflag. cbv zeta.
    fold validate_response settings checked validated failed.
    destruct (errors validated); [congruence|reflexivity].
  - unfold openapi_validation_error.
    assert (Hkept : req_settings failed !! "pyramid_openapi3_extract_errors"
                    = Some (VCallable extract_errors)).
    { cbn -[asbool dict_get]. rewrite lookup_insert_ne by discriminate. exact Hextract. }
    rewrite Hkept. unfold exception_response. cbn [select_status_code context_errors].
    now rewrite escalate_existsb.
Qed.

End WrapperMore.

Section ErrorViewLog.

Context (E : Externals).

(** X15.  The exception view logs exactly one record, the exception itself:
    at warning level for a request validation error and at error level for a
    response validation error.  It is logged before the settings are looked
    up: when the settings hold no extraction function the view raises
    [KeyError], with the record logged all the same. *)
Theorem error_view_logging (request : Request) :
  (forall errs,
      fst (openapi_validation_error E (RequestValidationError errs) request)
      = [(WARNING, LogException (RequestValidationError errs))])
  /\ (forall errs,
         fst (openapi_validation_error E (ResponseValidationError errs) request)
         = [(ERROR, LogException (ResponseValidationError errs))])
  /\ (req_settings request !! "pyramid_openapi3_extract_errors" = None ->
      forall context,
        snd (openapi_validation_error E context request)
        = Raise (KeyError "pyramid_openapi3_extract_errors")).
Proof.
  unfold openapi_validation_error. repeat split.
  - intros errs.
    destruct (req_settings request !! "pyramid_openapi3_extract_errors") as [[]|];
      reflexivity.
  - intros errs.
    destruct (req_settings request !! "pyramid_openapi3_extract_errors") as [[]|];
      reflexivity.
  - intros Hnone context. now rewrite Hnone.
Qed.

End ErrorViewLog.

Lemma wrapper_without_spec_witness :
  fst (openapi_view Demo.externals Demo.marking_view Demo.openapi_info tt
         (Demo.request_to Demo.included "/hello" "{}"))
  = Raise (KeyError "pyramid_openapi3").
Proof.
  rewrite (wrapper_without_spec Demo.externals Demo.marking_view Demo.openapi_info tt
             (Demo.request_to Demo.included "/hello" "{}") eq_refl eq_refl).
  reflexivity.
Defined.

Lemma wrapper_refreshes_base_url_witness :
  exists received bag',
    req_settings received !! "pyramid_openapi3" = Some (VBag bag')
    /\ base_url (request_validator bag') = Some "http://localhost"
    /\ base_url (response_validator bag') = Some "http://localhost".
Proof.
  destruct (wrapper_refreshes_base_url Demo.externals (Ctx := unit) Demo.openapi_info tt
              (Demo.request_to Demo.with_spec "/hello" "{}") Demo.hello_bag
              eq_refl ltac:(vm_compute; reflexivity))
    as (received & bag' & _ & Hbag & Hrequest & Hresponse & _).
  exists received, bag'. repeat split; assumption.
Defined.

Lemma validation_failure_response_witness :
  fst (openapi_view Demo.externals Demo.marking_view Demo.openapi_info tt
         (Demo.request_to Demo.with_spec "/hello" ""))
  = Raise (ValidationError (RequestValidationError [Demo.missing_body; Demo.no_api_key])).
Proof.
  pose proof (validation_failure_response Demo.externals Demo.marking_view
                Demo.openapi_info tt (Demo.request_to Demo.with_spec "/hello" "")
                Demo.hello_bag "extract_errors") as W.
  cbv zeta in W.
  destruct W as [Hraise _];
    [reflexivity | vm_compute; reflexivity | vm_compute; reflexivity | reflexivity
    | vm_compute; discriminate |].
  rewrite Hraise. vm_compute. reflexivity.
Defined.

Lemma error_view_logging_witness :
  snd (openapi_validation_error Demo.externals
         (ResponseValidationError [Demo.missing_body])
         (Demo.request_to Demo.empty_config "/hello" ""))
  = Raise (KeyError "pyramid_openapi3_extract_errors").
Proof.
  apply (proj2 (proj2 (error_view_logging Demo.externals
                         (Demo.request_to Demo.empty_config "/hello" "")))).
  reflexivity.
Defined.
